(** * Loan and salary calculator: the financial core of [student_loans.py]

    A shallow embedding of the four calculation functions of
    [student_loans.py] ([check_loan_parameters], [calculate_monthly_payment],
    [calculate_time_to_repay], [calculate_monthly_takehome]) and of the
    net take-home button handler [call_calculate_monthly_takehome], then
    of the form itself: [fill_missing_fields], the three button handlers
    on the entries' texts, and the entries as [make_form] creates them.

    Numbers.  Python's [float] is embedded as the real numbers [R]: every
    arithmetic operation is the exact one, so rounding and the special
    values of binary64 are outside the model, and a theorem on a returned
    number takes that number from the call rather than promise it.  What
    Python does independently of rounding is kept: a division by zero
    raises [ZeroDivisionError], [math.log] of a non-positive float raises
    [ValueError], [**] raises [OverflowError] when the power is beyond
    the largest float, [**] on a negative base and a fractional exponent
    yields a [complex], and [math.log] of a [complex] raises [TypeError]. *)

From Stdlib Require Import Reals Lra ZArith Bool String.
From Stdlib Require Import Ascii List DecimalString.
Import ListNotations.

Local Open Scope R_scope.
Local Open Scope string_scope.

(** ** Python values and outcomes *)

Module Py.

(** A Python number as the functions below produce it: a [float], or the
    [complex] that [**] returns for a negative base. *)
Inductive num : Type :=
| Float (x : R)
| Complex (re im : R).

(** What the calculation functions return: a number or a message. *)
Inductive value : Type :=
| Num (v : num)
| Str (s : string).

Inductive exn : Type :=
| ZeroDivisionError
| ValueError
| TypeError
| OverflowError
| UnboundLocalError.

(** The outcome of a call: it returns, or an exception escapes. *)
Inductive outcome (A : Type) : Type :=
| Ret (a : A)
| Raise (e : exn).

Arguments Ret {A} a.
Arguments Raise {A} e.

Definition bind {A B : Type} (c : outcome A) (k : A -> outcome B) : outcome B :=
  match c with
  | Ret a => k a
  | Raise e => Raise e
  end.

Definition real (v : num) : R :=
  match v with Float x => x | Complex re _ => re end.

Definition imag (v : num) : R :=
  match v with Float _ => 0 | Complex _ im => im end.

(** [u + v], [u - v], [u * v]: float arithmetic on two floats, complex
    arithmetic as soon as one operand is complex. *)
Definition add (u v : num) : num :=
  match u, v with
  | Float x, Float y => Float (x + y)
  | _, _ => Complex (real u + real v) (imag u + imag v)
  end.

Definition sub (u v : num) : num :=
  match u, v with
  | Float x, Float y => Float (x - y)
  | _, _ => Complex (real u - real v) (imag u - imag v)
  end.

Definition mul (u v : num) : num :=
  match u, v with
  | Float x, Float y => Float (x * y)
  | _, _ => Complex (real u * real v - imag u * imag v)
                    (real u * imag v + imag u * real v)
  end.

(** [u / v]: raises [ZeroDivisionError] on a zero divisor, float or
    complex. *)
Definition div (u v : num) : outcome num :=
  match u, v with
  | Float x, Float y =>
      if Req_dec_T y 0 then Raise ZeroDivisionError else Ret (Float (x / y))
  | _, _ =>
      let a := real u in let b := imag u in
      let c := real v in let d := imag v in
      let quotient := Complex ((a * c + b * d) / (c * c + d * d))
                              ((b * c - a * d) / (c * c + d * d)) in
      if Req_dec_T c 0 then
        if Req_dec_T d 0 then Raise ZeroDivisionError else Ret quotient
      else Ret quotient
  end.

(** The largest float, [(2 - 2^-52) * 2^1023]. *)
Definition float_max : R := (2 - Rpower 2 (-52)) * Rpower 2 1023.

(** [b ** n] on two floats, in the order of the interpreter's tests: a
    zero exponent gives 1; a zero base gives [ZeroDivisionError] for a
    negative exponent and 0 otherwise; a negative base with an exponent
    that is not integral gives the complex number of modulus [(-b) ** n]
    and argument [pi * n], and with an integral one the real power
    signed by the exponent's parity; a positive base gives
    [exp (n * ln b)].  In each case a power whose size is beyond the
    largest float raises [OverflowError]. *)
Definition pow (b n : R) : outcome num :=
  if Req_dec_T n 0 then Ret (Float 1)
  else if Req_dec_T b 0 then
    if Rlt_dec n 0 then Raise ZeroDivisionError else Ret (Float 0)
  else if Rlt_dec b 0 then
    if Req_dec_T n (IZR (Zfloor n)) then
      if Rlt_dec float_max (Rpower (- b) n) then Raise OverflowError
      else Ret (Float (if Z.even (Zfloor n) then Rpower (- b) n
                       else - Rpower (- b) n))
    else
      if Rlt_dec float_max (Rpower (- b) n) then Raise OverflowError
      else Ret (Complex (Rpower (- b) n * cos (PI * n))
                        (Rpower (- b) n * sin (PI * n)))
  else if Rlt_dec float_max (Rpower b n) then Raise OverflowError
  else Ret (Float (Rpower b n)).

(** [math.log v]. *)
Definition log (v : num) : outcome R :=
  match v with
  | Float x => if Rlt_dec 0 x then Ret (ln x) else Raise ValueError
  | Complex _ _ => Raise TypeError
  end.

End Py.

Import Py.

Notation "x <- c ;; k" := (Py.bind c (fun x => k))
  (at level 61, c at next level, right associativity).

(** ** The calculation functions *)

(** [check_loan_parameters]: the message to show, or [None]. *)
Definition check_loan_parameters
    (loan_amount interest_rate_year loan_term : R)
    (loan_term_units : string) : option string :=
  if Req_dec_T loan_amount 0 then
    Some "Please enter valid loan amount"
  else if Req_dec_T interest_rate_year 0 then
    Some "Please enter valid interest rate"
  else if Req_dec_T loan_term 0 then
    Some "Please enter valid loan term"
  else if negb (loan_term_units =? "months")
          && negb (loan_term_units =? "years") then
    Some "Please select 'years' or 'months' for the loan term"
  else None.

(** [calculate_monthly_payment]: the payment, or the validator's message. *)
Definition calculate_monthly_payment
    (loan_amount interest_rate_year loan_term : R)
    (loan_term_units : string) : outcome value :=
  match check_loan_parameters loan_amount interest_rate_year loan_term
                              loan_term_units with
  | Some param_check => Ret (Str param_check)
  | None =>
      let interest_rate_month := interest_rate_year / 12 in
      number_of_payments <-
        (if loan_term_units =? "years" then Ret (loan_term * 12)
         else if loan_term_units =? "months" then Ret loan_term
         else Raise UnboundLocalError) ;;
      growth <- pow (1 + interest_rate_month / 100) number_of_payments ;;
      monthly_payment <-
        div (mul (Float (loan_amount * interest_rate_month / 100)) growth)
            (sub growth (Float 1)) ;;
      Ret (Num monthly_payment)
  end.

(** [calculate_time_to_repay]: the number of payments, or the validator's
    message.  The value of [calculate_monthly_payment] is used as a number
    without a test: on a string, [+] raises [TypeError]. *)
Definition calculate_time_to_repay
    (loan_amount interest_rate_year loan_term : R)
    (loan_term_units : string) (monthly_payment_additional : R)
    : outcome value :=
  match check_loan_parameters loan_amount interest_rate_year loan_term
                              loan_term_units with
  | Some param_check => Ret (Str param_check)
  | None =>
      base <- calculate_monthly_payment loan_amount interest_rate_year
                loan_term loan_term_units ;;
      match base with
      | Str _ => Raise TypeError
      | Num monthly_payment_base =>
          let interest_rate_month := interest_rate_year / 12 in
          ratio <- div (Float (interest_rate_month / 100 * loan_amount))
                       (add monthly_payment_base
                            (Float monthly_payment_additional)) ;;
          numerator <- log (sub (Float 1) ratio) ;;
          denominator <- log (Float (1 + interest_rate_month / 100)) ;;
          number_of_payments_required <-
            div (Float (- numerator)) (Float denominator) ;;
          Ret (Num number_of_payments_required)
      end
  end.

(** [calculate_monthly_takehome]: no operation of it can raise. *)
Definition calculate_monthly_takehome
    (salary_base effective_tax_rate annual_savings : R) : value :=
  if Req_dec_T salary_base 0 then Str "Please enter valid salary"
  else
    let salary_takehome :=
      salary_base * (1 - effective_tax_rate / 100) - annual_savings in
    Num (Float (salary_takehome / 12)).

(** ** The net take-home handler *)

(** The fields [call_calculate_monthly_takehome] reads, each as the handler
    reads it: [float(entries[k].get())] for the numeric entries, once
    [fill_missing_fields] has put "0" in the blank ones, and
    [str(entries["Loan Term Units"].get())] for the unit. *)
Record entries : Type := {
  Loan_Amount : R;
  Annual_Interest_Rate : R;
  Loan_Term : R;
  Loan_Term_Units : string;
  Additional_Monthly_Payment : R;
  Salary : R;
  Effective_Tax_Rate : R;
  Annual_Savings_Target : R
}.

(** What the handler inserts in the "Monthly Take-home Salary" entry: a
    number through ["{:.2f}".format], or a message as it is. *)
Inductive shown : Type :=
| Fixed2 (v : num)
| Text (s : string).

Section Handler.

(** The function bound to the name [calculate_monthly_payment] when the
    handler runs. *)
Variable monthly_payment_fn : R -> R -> R -> string -> outcome value.

Definition call_calculate_monthly_takehome_with (e : entries)
    : outcome shown :=
  let monthly_takehome :=
    calculate_monthly_takehome (Salary e) (Effective_Tax_Rate e)
                               (Annual_Savings_Target e) in
  loan <-
    (if Req_dec_T (Loan_Amount e) 0 then Ret (Num (Float 0), 0)
     else
       monthly_payment_base <-
         monthly_payment_fn (Loan_Amount e) (Annual_Interest_Rate e)
                            (Loan_Term e) (Loan_Term_Units e) ;;
       Ret (monthly_payment_base, Additional_Monthly_Payment e)) ;;
  let monthly_payment_base := fst loan in
  let additional_monthly_payment := snd loan in
  match monthly_takehome, monthly_payment_base with
  | Num takehome, Num payment =>
      Ret (Fixed2 (sub (sub takehome payment)
                       (Float additional_monthly_payment)))
  | Str message, _ => Ret (Text message)
  | Num _, Str message => Ret (Text message)
  end.

End Handler.

Definition call_calculate_monthly_takehome : entries -> outcome shown :=
  call_calculate_monthly_takehome_with calculate_monthly_payment.

(** ** The spec's formulas, to compare the code with *)

(** The number of payments of a term: [term * 12] in years, [term] in
    months. *)
Definition payment_count (term : R) (term_unit : string) : R :=
  if term_unit =? "years" then term * 12 else term.

(** The fixed-payment amortization formula
    [amount * (r/100) * (1+r/100)^n / ((1+r/100)^n - 1)] with
    [r = annual_rate_percent / 12]. *)
Definition amortized_payment (amount annual_rate_percent n : R) : R :=
  let r := annual_rate_percent / 12 in
  amount * (r / 100) * Rpower (1 + r / 100) n
  / (Rpower (1 + r / 100) n - 1).

(** The argument of the logarithm in the numerator of the payoff-duration
    formula. *)
Definition log_argument (amount annual_rate_percent payment : R) : R :=
  let r := annual_rate_percent / 12 in
  1 - r / 100 * amount / payment.

(** ** The form and its button handlers *)

Module Form.

(** The entries [make_form] creates, one for each name of its [fields]. *)
Inductive field : Type :=
| Loan_Amount
| Annual_Interest_Rate
| Loan_Term
| Additional_Monthly_Payment
| Salary
| Effective_Tax_Rate
| Annual_Savings_Target
| Total_Monthly_Payment
| Time_to_Repay
| Monthly_Takehome_Salary.

Definition field_eq_dec (f g : field) : {f = g} + {f <> g}.
Proof. decide equality. Defined.

(** The dictionary [make_form] returns: the text of each entry, read as a
    string of code points below 256, and the values of the two
    [StringVar]s. *)
Record widgets : Type := {
  text : field -> string;
  loan_term_units : string;
  repay_time_units : string
}.

Definition set_text (entries : widgets) (f : field) (s : string) : widgets :=
  {| text := fun g => if field_eq_dec g f then s else text entries g;
     loan_term_units := loan_term_units entries;
     repay_time_units := repay_time_units entries |}.

(** [entries[f].delete(0, tk.END)] and [entries[f].insert(0, s)]. *)
Definition delete_all (entries : widgets) (f : field) : widgets :=
  set_text entries f "".

Definition insert_front (entries : widgets) (f : field) (s : string)
  : widgets :=
  set_text entries f (s ++ text entries f).

(** [str.isspace] on a code point below 256. *)
Definition isspace (c : ascii) : bool :=
  let n := nat_of_ascii c in
  (Nat.leb 9 n && Nat.leb n 13) || (Nat.leb 28 n && Nat.leb n 32)
  || Nat.eqb n 133 || Nat.eqb n 160.

Fixpoint lstrip (s : string) : string :=
  match s with
  | EmptyString => EmptyString
  | String c rest => if isspace c then lstrip rest else s
  end.

Fixpoint rstrip (s : string) : string :=
  match s with
  | EmptyString => EmptyString
  | String c rest =>
      match rstrip rest with
      | EmptyString => if isspace c then EmptyString
                       else String c EmptyString
      | kept => String c kept
      end
  end.

(** [s.strip()]. *)
Definition strip (s : string) : string := rstrip (lstrip s).

(** [fill_missing_fields]: every listed entry whose text is blank gets
    the text "0". *)
Fixpoint fill_missing_fields (entries : widgets) (fields_to_fill : list field)
  : widgets :=
  match fields_to_fill with
  | [] => entries
  | field :: rest =>
      fill_missing_fields
        (if strip (text entries field) =? "" then
           insert_front (delete_all entries field) field "0"
         else entries)
        rest
  end.

(** How a handler ends: it returns, or an exception escapes it; either
    way the entries keep what was written to them. *)
Inductive run : Type :=
| Done (entries : widgets)
| Escaped (e : exn) (entries : widgets).

Definition final (r : run) : widgets :=
  match r with Done entries => entries | Escaped _ entries => entries end.

(** A run that leaves the entries [filled] as they are, or with the entry
    [output] emptied, or with the entry [output] rewritten; stated to
    compare the handlers with. *)
Definition touches_only (output : field) (filled : widgets) (r : run)
  : Prop :=
  final r = filled \/
  final r = delete_all filled output \/
  exists s, final r = insert_front (delete_all filled output) output s.

(** [math.ceil v]. *)
Definition ceil (v : value) : outcome Z :=
  match v with
  | Num (Float x) => Ret (Zceil x)
  | Num (Complex _ _) => Raise TypeError
  | Str _ => Raise TypeError
  end.

(** [v / 12]. *)
Definition div_12 (v : value) : outcome num :=
  match v with
  | Num n => div n (Float 12)
  | Str _ => Raise TypeError
  end.

(** ["{:d}".format n] on an [int]. *)
Definition format_d (n : Z) : string := NilZero.string_of_int (Z.to_int n).

(** [float] on the strings of decimal digits only, where its value is the
    number written; an instance of the parameter [float] below. *)
Definition float_of_digits (s : string) : outcome R :=
  match NilZero.uint_of_string s with
  | Some digits => Ret (IZR (Z.of_uint digits))
  | None => Raise ValueError
  end.

(** The form as [make_form] returns it: "0" in every entry, and in each
    [StringVar] the value it is created with. *)
Definition make_form : widgets :=
  {| text := fun _ => "0";
     loan_term_units := "Loan Term Units";
     repay_time_units := "Repay Time Units" |}.

Section Handlers.

(** [float] on a string, with a finite value or [ValueError], and the
    formats ["{:.2f}"] and ["{:.1f}"] are parameters of the handlers. *)
Variable float : string -> outcome R.
Variable format_2f : num -> string.
Variable format_1f : num -> string.

Definition call_calculate_time_to_repay (entries : widgets) : run :=
  let entries :=
    fill_missing_fields entries
      [Loan_Amount; Annual_Interest_Rate; Loan_Term;
       Additional_Monthly_Payment] in
  match
    loan_amount <- float (text entries Loan_Amount) ;;
    interest_rate_year <- float (text entries Annual_Interest_Rate) ;;
    loan_term <- float (text entries Loan_Term) ;;
    monthly_payment_additional <-
      float (text entries Additional_Monthly_Payment) ;;
    calculate_time_to_repay loan_amount interest_rate_year loan_term
                            (loan_term_units entries)
                            monthly_payment_additional
  with
  | Raise e => Escaped e entries
  | Ret time_to_repay =>
      let entries := delete_all entries Time_to_Repay in
      if repay_time_units entries =? "months" then
        match ceil time_to_repay with
        | Raise e => Escaped e entries
        | Ret months =>
            Done (insert_front entries Time_to_Repay (format_d months))
        end
      else if repay_time_units entries =? "years" then
        match div_12 time_to_repay with
        | Raise e => Escaped e entries
        | Ret years =>
            Done (insert_front entries Time_to_Repay (format_1f years))
        end
      else
        Done (insert_front entries Time_to_Repay
                           "Please select 'years' or 'months'")
  end.

Definition call_calculate_total_monthly_payment (entries : widgets) : run :=
  let entries :=
    fill_missing_fields entries
      [Loan_Amount; Annual_Interest_Rate; Loan_Term;
       Additional_Monthly_Payment] in
  match
    loan_amount <- float (text entries Loan_Amount) ;;
    interest_rate_year <- float (text entries Annual_Interest_Rate) ;;
    loan_term <- float (text entries Loan_Term) ;;
    calculate_monthly_payment loan_amount interest_rate_year loan_term
                              (loan_term_units entries)
  with
  | Raise e => Escaped e entries
  | Ret monthly_payment_base =>
      let entries := delete_all entries Total_Monthly_Payment in
      match monthly_payment_base with
      | Num base =>
          match float (text entries Additional_Monthly_Payment) with
          | Raise e => Escaped e entries
          | Ret additional =>
              let total_monthly_payment := add base (Float additional) in
              Done (insert_front entries Total_Monthly_Payment
                                 (format_2f total_monthly_payment))
          end
      | Str message =>
          Done (insert_front entries Total_Monthly_Payment message)
      end
  end.

Definition call_calculate_monthly_takehome (entries : widgets) : run :=
  let entries :=
    fill_missing_fields entries
      [Loan_Amount; Annual_Interest_Rate; Loan_Term;
       Additional_Monthly_Payment; Salary; Effective_Tax_Rate;
       Annual_Savings_Target] in
  match
    salary_base <- float (text entries Salary) ;;
    effective_tax_rate <- float (text entries Effective_Tax_Rate) ;;
    annual_savings <- float (text entries Annual_Savings_Target) ;;
    loan_amount <- float (text entries Loan_Amount) ;;
    loan <-
      (if Req_dec_T loan_amount 0 then Ret (Num (Float 0), 0)
       else
         loan_amount <- float (text entries Loan_Amount) ;;
         interest_rate_year <- float (text entries Annual_Interest_Rate) ;;
         loan_term <- float (text entries Loan_Term) ;;
         monthly_payment_base <-
           calculate_monthly_payment loan_amount interest_rate_year
                                     loan_term (loan_term_units entries) ;;
         additional <- float (text entries Additional_Monthly_Payment) ;;
         Ret (monthly_payment_base, additional)) ;;
    Ret (calculate_monthly_takehome salary_base effective_tax_rate
                                    annual_savings, loan)
  with
  | Raise e => Escaped e entries
  | Ret (monthly_takehome, (monthly_payment_base, additional)) =>
      let entries := delete_all entries Monthly_Takehome_Salary in
      match monthly_takehome, monthly_payment_base with
      | Num takehome, Num payment =>
          Done (insert_front entries Monthly_Takehome_Salary
                  (format_2f (sub (sub takehome payment)
                                  (Float additional))))
      | Str message, _ =>
          Done (insert_front entries Monthly_Takehome_Salary message)
      | Num _, Str message =>
          Done (insert_front entries Monthly_Takehome_Salary message)
      end
  end.

End Handlers.

End Form.

(** ** Facts on the validator *)

Lemma check_passes loan_amount interest_rate_year loan_term loan_term_units :
  check_loan_parameters loan_amount interest_rate_year loan_term
                        loan_term_units = None <->
  loan_amount <> 0 /\ interest_rate_year <> 0 /\ loan_term <> 0 /\
  (loan_term_units = "months" \/ loan_term_units = "years").
Proof.
  unfold check_loan_parameters.
  destruct (Req_dec_T loan_amount 0) as [Ha|Ha];
    [split; [discriminate | tauto]|].
  destruct (Req_dec_T interest_rate_year 0) as [Hr|Hr];
    [split; [discriminate | tauto]|].
  destruct (Req_dec_T loan_term 0) as [Ht|Ht];
    [split; [discriminate | tauto]|].
  destruct (String.eqb_spec loan_term_units "months") as [Hm|Hm];
    destruct (String.eqb_spec loan_term_units "years") as [Hy|Hy];
    cbn; split; try discriminate; try tauto.
Qed.

Lemma check_positive a rate t u :
  0 < a -> 0 < rate -> 0 < t -> u = "months" \/ u = "years" ->
  check_loan_parameters a rate t u = None.
Proof.
  intros Ha Hr Ht Hu. apply check_passes.
  repeat split; try lra. exact Hu.
Qed.

(** C3: the validator returns a message exactly when the amount, the rate
    or the term is zero or the unit is neither "months" nor "years";
    negative amounts, rates and terms pass, as does the spec's example
    [validate(-100, 5, 10, "years")]. *)
Theorem check_loan_parameters_error_iff :
  (forall loan_amount interest_rate_year loan_term loan_term_units,
      (exists message,
          check_loan_parameters loan_amount interest_rate_year loan_term
                                loan_term_units = Some message) <->
      (loan_amount = 0 \/ interest_rate_year = 0 \/ loan_term = 0 \/
       (loan_term_units <> "months" /\ loan_term_units <> "years"))) /\
  check_loan_parameters (-100) 5 10 "years" = None /\
  check_loan_parameters (-100) (-5) (-10) "months" = None.
Proof.
  split; [|split; apply check_passes; repeat split; (lra || tauto)].
  intros a r t u.
  pose proof (check_passes a r t u) as Hnone.
  destruct (check_loan_parameters a r t u) as [m|] eqn:E.
  - split; [intros _ | intros _; now exists m].
    destruct (Req_dec_T a 0); [tauto|].
    destruct (Req_dec_T r 0); [tauto|].
    destruct (Req_dec_T t 0); [tauto|].
    do 3 right.
    split; intros Hu; assert (Some m = None) by (apply Hnone; tauto);
      discriminate.
  - split; [intros [m Hm]; discriminate|].
    destruct Hnone as [Hnone _].
    destruct (Hnone eq_refl) as (Ha & Hr & Ht & Hu).
    intros [H|[H|[H|[H1 H2]]]]; try contradiction.
    destruct Hu; contradiction.
Qed.

(** C10: the validator tests the amount, then the rate, then the term,
    then the unit, and returns the message of the first test that fails;
    with a zero amount and a zero rate together it is the amount's
    message. *)
Theorem check_loan_parameters_first_failure :
  forall loan_amount interest_rate_year loan_term loan_term_units,
    (loan_amount = 0 ->
     check_loan_parameters loan_amount interest_rate_year loan_term
                           loan_term_units
     = Some "Please enter valid loan amount") /\
    (loan_amount <> 0 -> interest_rate_year = 0 ->
     check_loan_parameters loan_amount interest_rate_year loan_term
                           loan_term_units
     = Some "Please enter valid interest rate") /\
    (loan_amount <> 0 -> interest_rate_year <> 0 -> loan_term = 0 ->
     check_loan_parameters loan_amount interest_rate_year loan_term
                           loan_term_units
     = Some "Please enter valid loan term") /\
    (loan_amount <> 0 -> interest_rate_year <> 0 -> loan_term <> 0 ->
     loan_term_units <> "months" -> loan_term_units <> "years" ->
     check_loan_parameters loan_amount interest_rate_year loan_term
                           loan_term_units
     = Some "Please select 'years' or 'months' for the loan term").
Proof.
  intros a r t u. unfold check_loan_parameters.
  repeat split; intros.
  - destruct (Req_dec_T a 0); [reflexivity | contradiction].
  - destruct (Req_dec_T a 0); [contradiction|].
    destruct (Req_dec_T r 0); [reflexivity | contradiction].
  - destruct (Req_dec_T a 0); [contradiction|].
    destruct (Req_dec_T r 0); [contradiction|].
    destruct (Req_dec_T t 0); [reflexivity | contradiction].
  - destruct (Req_dec_T a 0); [contradiction|].
    destruct (Req_dec_T r 0); [contradiction|].
    destruct (Req_dec_T t 0); [contradiction|].
    destruct (String.eqb_spec u "months"); [contradiction|].
    destruct (String.eqb_spec u "years"); [contradiction|].
    reflexivity.
Qed.

(** With every parameter invalid at once, the amount's message wins. *)
Lemma check_loan_parameters_first_failure_witness :
  check_loan_parameters 0 0 0 "weeks" = Some "Please enter valid loan amount".
Proof.
  apply (proj1 (check_loan_parameters_first_failure 0 0 0 "weeks")).
  reflexivity.
Defined.

(** ** Facts on the power and the payment *)

Lemma float_max_bounds : Rpower 2 1023 < float_max < Rpower 2 1024.
Proof.
  unfold float_max.
  assert (Heps : 0 < Rpower 2 (-52) < 1).
  { split; [apply exp_pos|].
    rewrite <- (Rpower_O 2) by lra. apply Rpower_lt; lra. }
  assert (Hbig : 0 < Rpower 2 1023) by apply exp_pos.
  assert (H1024 : Rpower 2 1024 = 2 * Rpower 2 1023).
  { replace 1024 with (1 + 1023) by lra.
    rewrite Rpower_plus, Rpower_1 by lra. reflexivity. }
  rewrite H1024. split; nra.
Qed.

(** A power of a base up to 2 with an exponent up to 1023 is a float. *)
Lemma Rpower_in_range b n :
  0 < b <= 2 -> 0 <= n <= 1023 -> Rpower b n <= float_max.
Proof.
  intros Hb Hn.
  apply Rle_trans with (Rpower 2 n); [now apply Rle_Rpower_l|].
  apply Rle_trans with (Rpower 2 1023); [apply Rle_Rpower; lra|].
  left. apply float_max_bounds.
Qed.

Lemma pow_positive_base b n :
  0 < b -> Rpower b n <= float_max -> pow b n = Ret (Float (Rpower b n)).
Proof.
  intros Hb Hrange. unfold pow.
  destruct (Req_dec_T n 0) as [->|Hn].
  - now rewrite Rpower_O.
  - destruct (Req_dec_T b 0); [lra|].
    destruct (Rlt_dec b 0); [lra|].
    destruct (Rlt_dec float_max (Rpower b n)); [lra | reflexivity].
Qed.

(** What [**] returns on a positive base, when it returns. *)
Lemma pow_positive_base_inv b n v :
  0 < b -> pow b n = Ret v -> v = Float (Rpower b n).
Proof.
  intros Hb. unfold pow.
  destruct (Req_dec_T n 0) as [->|Hn].
  - rewrite Rpower_O by assumption. intros H. now inversion H.
  - destruct (Req_dec_T b 0); [lra|].
    destruct (Rlt_dec b 0); [lra|].
    destruct (Rlt_dec float_max (Rpower b n)); [discriminate|].
    intros H. now inversion H.
Qed.


Lemma Rpower_gt_1 b n : 1 < b -> 0 < n -> 1 < Rpower b n.
Proof.
  intros Hb Hn. rewrite <- (Rpower_O b) by lra.
  now apply Rpower_lt.
Qed.

Lemma payment_count_nonzero t u : t <> 0 -> payment_count t u <> 0.
Proof.
  intros Ht. unfold payment_count. destruct (u =? "years"); lra.
Qed.

Lemma number_of_payments_eq (t : R) u :
  u = "months" \/ u = "years" ->
  (if u =? "years" then Ret (t * 12)
   else if u =? "months" then Ret t else Raise UnboundLocalError)
  = Ret (payment_count t u).
Proof.
  unfold payment_count. intros [->| ->]; reflexivity.
Qed.

(** The payment on a validated input whose growth [(1 + r/100) ** n] is a
    real number other than 1. *)
Lemma monthly_payment_real_growth a rate t u growth :
  check_loan_parameters a rate t u = None ->
  pow (1 + rate / 12 / 100) (payment_count t u) = Ret (Float growth) ->
  growth <> 1 ->
  calculate_monthly_payment a rate t u
  = Ret (Num (Float (a * (rate / 12 / 100) * growth / (growth - 1)))).
Proof.
  intros Hcheck Hpow Hne. unfold calculate_monthly_payment.
  rewrite Hcheck. apply check_passes in Hcheck as (_ & _ & _ & Hu).
  rewrite (number_of_payments_eq t u Hu). cbn [bind].
  rewrite Hpow. cbn [bind mul sub div].
  destruct (Req_dec_T _ 0) as [H0|_]; [lra|].
  cbn [bind]. do 3 f_equal. field. lra.
Qed.

(** A real number returned on a validated input is the formula's value on
    a real growth other than 1. *)
Lemma monthly_payment_float_inv a rate t u p :
  check_loan_parameters a rate t u = None ->
  calculate_monthly_payment a rate t u = Ret (Num (Float p)) ->
  exists growth,
    pow (1 + rate / 12 / 100) (payment_count t u) = Ret (Float growth) /\
    growth <> 1 /\
    p = a * (rate / 12 / 100) * growth / (growth - 1).
Proof.
  intros Hcheck. unfold calculate_monthly_payment.
  rewrite Hcheck. apply check_passes in Hcheck as (_ & _ & _ & Hu).
  rewrite (number_of_payments_eq t u Hu). cbn [bind].
  destruct (pow _ _) as [[growth|gr gi]|e]; cbn [bind mul sub div real imag].
  - destruct (Req_dec_T (growth - 1) 0) as [|Hne]; cbn [bind];
      [discriminate|].
    intros H. inversion H as [Hp]. exists growth.
    repeat split; [lra|]. field. lra.
  - destruct (Req_dec_T (gr - 1) 0);
      [destruct (Req_dec_T (gi - 0) 0)|]; cbn [bind]; discriminate.
  - discriminate.
Qed.

(** A real number returned on a validated input with a positive growth
    base is the amortized payment. *)
Lemma monthly_payment_positive_base_inv a rate t u p :
  check_loan_parameters a rate t u = None ->
  0 < 1 + rate / 12 / 100 ->
  calculate_monthly_payment a rate t u = Ret (Num (Float p)) ->
  p = amortized_payment a rate (payment_count t u).
Proof.
  intros Hcheck Hbase Hpay.
  destruct (monthly_payment_float_inv a rate t u p Hcheck Hpay)
    as (growth & Hpow & _ & ->).
  apply pow_positive_base_inv in Hpow; [|assumption].
  inversion Hpow. reflexivity.
Qed.

(** ** The monthly payment *)

(** C1, as the code has it: on a validator message the payment function
    returns that message; on a validated input whose growth
    [(1+r/100)^n] evaluates to a real number other than 1 it returns
    [amount * (r/100) * (1+r/100)^n / ((1+r/100)^n - 1)], with
    [r = annualRatePercent / 12], [n = term * 12] in years and
    [n = term] in months; and on no other validated input does it return
    a real number. *)
Theorem calculate_monthly_payment_spec :
  forall amount annual_rate_percent term term_unit,
    let r := annual_rate_percent / 12 in
    let n := payment_count term term_unit in
    (forall message,
        check_loan_parameters amount annual_rate_percent term term_unit
        = Some message ->
        calculate_monthly_payment amount annual_rate_percent term term_unit
        = Ret (Str message)) /\
    (check_loan_parameters amount annual_rate_percent term term_unit = None ->
     (forall growth,
         pow (1 + r / 100) n = Ret (Float growth) -> growth <> 1 ->
         calculate_monthly_payment amount annual_rate_percent term term_unit
         = Ret (Num (Float (amount * (r / 100) * growth / (growth - 1))))) /\
     (forall payment,
         calculate_monthly_payment amount annual_rate_percent term term_unit
         = Ret (Num (Float payment)) ->
         exists growth,
           pow (1 + r / 100) n = Ret (Float growth) /\ growth <> 1 /\
           payment = amount * (r / 100) * growth / (growth - 1))) /\
    (term_unit = "years" -> n = term * 12) /\
    (term_unit = "months" -> n = term).
Proof.
  intros a rate t u r n. split; [|split; [|split; intros ->; reflexivity]].
  - intros m Hm. unfold calculate_monthly_payment. now rewrite Hm.
  - intros Hcheck. split.
    + intros growth. now apply monthly_payment_real_growth.
    + intros payment. now apply monthly_payment_float_inv.
Qed.

Lemma check_1000_1200_1_months :
  check_loan_parameters 1000 1200 1 "months" = None.
Proof. apply check_positive; try lra. now left. Qed.

(** The growth of the loan at 1200 percent a year over one month. *)
Lemma pow_2_1 :
  pow (1 + 1200 / 12 / 100) (payment_count 1 "months") = Ret (Float 2).
Proof.
  unfold payment_count. cbn [String.eqb Ascii.eqb Bool.eqb].
  replace (1 + 1200 / 12 / 100) with 2 by lra.
  rewrite pow_positive_base by (try apply Rpower_in_range; lra).
  now rewrite Rpower_1 by lra.
Qed.

Lemma calculate_monthly_payment_spec_witness :
  calculate_monthly_payment 1000 1200 1 "months"
  = Ret (Num (Float (1000 * (1200 / 12 / 100) * 2 / (2 - 1)))).
Proof.
  pose proof (calculate_monthly_payment_spec 1000 1200 1 "months") as H.
  cbv zeta in H.
  apply (proj1 (proj1 (proj2 H) check_1000_1200_1_months) 2 pow_2_1).
  lra.
Defined.

(** C1 as stated fails: an annual rate of -2400 percent over two monthly
    payments passes the validator, the growth [(-1) ** 2] is 1, and the
    division by [1 - 1] raises instead of returning a number. *)
Lemma calculate_monthly_payment_validated_raises :
  check_loan_parameters 1000 (-2400) 2 "months" = None /\
  calculate_monthly_payment 1000 (-2400) 2 "months" = Raise ZeroDivisionError /\
  (forall x, calculate_monthly_payment 1000 (-2400) 2 "months"
             <> Ret (Num (Float x))).
Proof.
  assert (Hcheck : check_loan_parameters 1000 (-2400) 2 "months" = None).
  { apply check_passes. repeat split; try lra. now left. }
  assert (Hraise : calculate_monthly_payment 1000 (-2400) 2 "months"
                   = Raise ZeroDivisionError).
  { unfold calculate_monthly_payment. rewrite Hcheck.
    cbn [String.eqb Ascii.eqb Bool.eqb bind].
    replace (1 + -2400 / 12 / 100) with (-1) by lra.
    unfold pow.
    destruct (Req_dec_T 2 0); [lra|].
    destruct (Req_dec_T (-1) 0); [lra|].
    destruct (Rlt_dec (-1) 0); [|lra].
    rewrite (ZfloorZ 2).
    destruct (Req_dec_T 2 2); [|lra].
    replace (- -1) with 1 by lra.
    assert (Hone : Rpower 1 2 = 1).
    { unfold Rpower. rewrite ln_1, Rmult_0_r. apply exp_0. }
    rewrite Hone.
    destruct (Rlt_dec float_max 1) as [Hover|_].
    { pose proof (Rpower_in_range 1 1 ltac:(lra) ltac:(lra)) as Hin.
      rewrite Rpower_1 in Hin by lra. lra. }
    cbn [Z.even bind mul sub div].
    destruct (Req_dec_T (1 - 1) 0); [reflexivity | lra]. }
  repeat split; trivial.
  intros x Hx. rewrite Hraise in Hx. discriminate.
Qed.

(** ** The time to repay *)

(** A message from the payment function is the validator's message. *)
Lemma monthly_payment_message_inv a rate t u message :
  calculate_monthly_payment a rate t u = Ret (Str message) ->
  check_loan_parameters a rate t u = Some message.
Proof.
  unfold calculate_monthly_payment.
  destruct (check_loan_parameters a rate t u) as [m|].
  - intros H. now inversion H.
  - destruct (u =? "years"); [|destruct (u =? "months")]; cbn [bind];
      try discriminate;
      (destruct (pow _ _) as [growth|]; cbn [bind]; [|discriminate];
       destruct (div _ _); cbn [bind]; discriminate).
Qed.

(** The payoff count on a validated input with a real base payment [p]
    and a positive growth base: the three ways the formula can end. *)
Lemma time_to_repay_real_payment a rate t u extra p :
  check_loan_parameters a rate t u = None ->
  calculate_monthly_payment a rate t u = Ret (Num (Float p)) ->
  0 < 1 + rate / 12 / 100 ->
  calculate_time_to_repay a rate t u extra
  = if Req_dec_T (p + extra) 0 then Raise ZeroDivisionError
    else if Rlt_dec 0 (log_argument a rate (p + extra)) then
      Ret (Num (Float (- ln (log_argument a rate (p + extra))
                       / ln (1 + rate / 12 / 100))))
    else Raise ValueError.
Proof.
  intros Hcheck Hpay Hbase. unfold calculate_time_to_repay.
  rewrite Hcheck, Hpay. cbn [bind add div].
  apply check_passes in Hcheck as (_ & Hr & _ & _).
  destruct (Req_dec_T (p + extra) 0) as [|Hsum]; [reflexivity|].
  cbn [bind sub log]. fold (log_argument a rate (p + extra)).
  destruct (Rlt_dec 0 (log_argument a rate (p + extra))); [|reflexivity].
  cbn [bind].
  destruct (Rlt_dec 0 (1 + rate / 12 / 100)); [|contradiction].
  cbn [bind div].
  destruct (Req_dec_T (ln (1 + rate / 12 / 100)) 0) as [Hln|_];
    [|reflexivity].
  exfalso. revert Hln. apply ln_neq_0; lra.
Qed.

(** C9: when the payment function returns a message on the same
    parameters, the time to repay returns that message unchanged, and the
    message is the validator's: no arithmetic is done on it. *)
Theorem calculate_time_to_repay_propagates_message :
  forall amount annual_rate_percent term term_unit extra message,
    calculate_monthly_payment amount annual_rate_percent term term_unit
    = Ret (Str message) ->
    calculate_time_to_repay amount annual_rate_percent term term_unit extra
    = Ret (Str message) /\
    check_loan_parameters amount annual_rate_percent term term_unit
    = Some message.
Proof.
  intros a rate t u extra m Hpay.
  apply monthly_payment_message_inv in Hpay.
  split; [|exact Hpay].
  unfold calculate_time_to_repay. now rewrite Hpay.
Qed.

Lemma calculate_time_to_repay_propagates_message_witness :
  calculate_time_to_repay 0 5 10 "years" 200
  = Ret (Str "Please enter valid loan amount").
Proof.
  apply (calculate_time_to_repay_propagates_message 0 5 10 "years" 200).
  unfold calculate_monthly_payment, check_loan_parameters.
  destruct (Req_dec_T 0 0) as [_|H]; [reflexivity | now destruct H].
Defined.

(** C2, as the code has it: on a validated input with a real base payment,
    an annual rate above -1200 percent and a total payment that is not
    zero, a logarithm argument at or below 0 lets [ValueError] escape the
    call, and an argument at or above 1 makes the call return a number
    that is not positive; neither gives an error result. *)
Theorem calculate_time_to_repay_outside_domain :
  forall amount annual_rate_percent term term_unit extra base_payment,
    check_loan_parameters amount annual_rate_percent term term_unit = None ->
    calculate_monthly_payment amount annual_rate_percent term term_unit
    = Ret (Num (Float base_payment)) ->
    -1200 < annual_rate_percent ->
    base_payment + extra <> 0 ->
    let x := log_argument amount annual_rate_percent (base_payment + extra) in
    (x <= 0 ->
     calculate_time_to_repay amount annual_rate_percent term term_unit extra
     = Raise ValueError) /\
    (1 <= x ->
     calculate_time_to_repay amount annual_rate_percent term term_unit extra
     = Ret (Num (Float (- ln x / ln (1 + annual_rate_percent / 12 / 100))))
     /\ (0 < annual_rate_percent ->
         - ln x / ln (1 + annual_rate_percent / 12 / 100) <= 0)).
Proof.
  intros a rate t u extra p Hcheck Hpay Hrate Hsum x.
  rewrite (time_to_repay_real_payment a rate t u extra p Hcheck Hpay)
    by lra.
  destruct (Req_dec_T (p + extra) 0); [contradiction|].
  fold x. split; intros Hx.
  - destruct (Rlt_dec 0 x); [lra | reflexivity].
  - destruct (Rlt_dec 0 x); [|lra]. split; [reflexivity|].
    intros Hpos.
    assert (0 <= ln x).
    { destruct Hx as [Hx|<-]; [|rewrite ln_1; lra].
      left. rewrite <- ln_1. apply ln_increasing; lra. }
    assert (0 < ln (1 + rate / 12 / 100)).
    { rewrite <- ln_1. apply ln_increasing; lra. }
    apply Rmult_le_reg_r with (ln (1 + rate / 12 / 100)); [assumption|].
    unfold Rdiv. rewrite Rmult_assoc, Rinv_l by lra. lra.
Qed.

(** ** Positive loans *)

Lemma amortized_payment_positive a rate n :
  0 < a -> 0 < rate -> 0 < n -> 0 < amortized_payment a rate n.
Proof.
  intros Ha Hr Hn. unfold amortized_payment.
  pose proof (Rpower_gt_1 (1 + rate / 12 / 100) n ltac:(lra) Hn) as Hgrowth.
  apply Rdiv_lt_0_compat; [|lra].
  repeat apply Rmult_lt_0_compat; lra.
Qed.

Lemma payment_count_positive t u : 0 < t -> 0 < payment_count t u.
Proof.
  intros Ht. unfold payment_count. destruct (u =? "years"); lra.
Qed.

Lemma check_years_months a rate t :
  check_loan_parameters a rate t "years"
  = check_loan_parameters a rate (t * 12) "months".
Proof.
  unfold check_loan_parameters.
  destruct (Req_dec_T a 0); [reflexivity|].
  destruct (Req_dec_T rate 0); [reflexivity|].
  destruct (Req_dec_T t 0), (Req_dec_T (t * 12) 0);
    try reflexivity; lra.
Qed.

Lemma monthly_payment_years_months a rate t :
  calculate_monthly_payment a rate t "years"
  = calculate_monthly_payment a rate (t * 12) "months".
Proof.
  unfold calculate_monthly_payment. rewrite check_years_months.
  reflexivity.
Qed.

(** The loan of 1000 at 1200 percent a year over one month: the growth
    base is 2 and the payment 2000. *)
Lemma payment_1000_1200_1_months :
  calculate_monthly_payment 1000 1200 1 "months" = Ret (Num (Float 2000)).
Proof.
  rewrite (monthly_payment_real_growth 1000 1200 1 "months" 2
             check_1000_1200_1_months pow_2_1) by lra.
  do 3 f_equal. lra.
Qed.

(** The same loan over 2000 months: the growth [2 ** 2000] is beyond the
    largest float. *)
Lemma check_1000_1200_2000_months :
  check_loan_parameters 1000 1200 2000 "months" = None.
Proof. apply check_positive; try lra. now left. Qed.

Lemma payment_1000_1200_2000_months :
  calculate_monthly_payment 1000 1200 2000 "months" = Raise OverflowError.
Proof.
  unfold calculate_monthly_payment.
  rewrite check_1000_1200_2000_months.
  cbn [String.eqb Ascii.eqb Bool.eqb bind].
  replace (1 + 1200 / 12 / 100) with 2 by lra.
  unfold pow.
  destruct (Req_dec_T 2000 0); [lra|].
  destruct (Req_dec_T 2 0); [lra|].
  destruct (Rlt_dec 2 0); [lra|].
  destruct (Rlt_dec float_max (Rpower 2 2000)) as [_|Hin]; [reflexivity|].
  exfalso. apply Hin.
  apply Rlt_trans with (Rpower 2 1024); [apply float_max_bounds|].
  apply Rpower_lt; lra.
Qed.

(** C6, as the code has it: on a valid input with positive amount, rate
    and term, a number that the payment function returns is never
    negative, and a term in years gives exactly the outcome of twelve
    times that term in months. *)
Theorem calculate_monthly_payment_sign_and_unit_exact :
  forall amount rate term term_unit,
    0 < amount -> 0 < rate -> 0 < term ->
    term_unit = "months" \/ term_unit = "years" ->
    (forall payment,
        calculate_monthly_payment amount rate term term_unit
        = Ret (Num (Float payment)) ->
        ~ payment < 0) /\
    calculate_monthly_payment amount rate term "years"
    = calculate_monthly_payment amount rate (term * 12) "months".
Proof.
  intros a rate t u Ha Hr Ht Hu. split.
  - intros p Hpay.
    apply monthly_payment_positive_base_inv in Hpay;
      [|now apply check_positive | lra].
    pose proof (amortized_payment_positive a rate (payment_count t u) Ha Hr
                  (payment_count_positive t u Ht)).
    lra.
  - apply monthly_payment_years_months.
Qed.

Lemma calculate_monthly_payment_sign_and_unit_exact_witness :
  ~ 2000 < 0.
Proof.
  apply (proj1 (calculate_monthly_payment_sign_and_unit_exact
                  1000 1200 1 "months"
                  ltac:(lra) ltac:(lra) ltac:(lra) (or_introl eq_refl))
               2000 payment_1000_1200_1_months).
Defined.

(** C6 as stated fails: the loan of 1000 at 1200 percent a year over 2000
    months is valid and positive, the growth [2.0 ** 2000] is beyond the
    largest float, and [OverflowError] escapes instead of a number. *)
Lemma calculate_monthly_payment_positive_input_raises :
  0 < 1000 /\ 0 < 1200 /\ 0 < 2000 /\
  check_loan_parameters 1000 1200 2000 "months" = None /\
  calculate_monthly_payment 1000 1200 2000 "months" = Raise OverflowError /\
  (forall payment,
      calculate_monthly_payment 1000 1200 2000 "months"
      <> Ret (Num (Float payment))).
Proof.
  repeat split; try lra.
  - exact check_1000_1200_2000_months.
  - exact payment_1000_1200_2000_months.
  - intros p. rewrite payment_1000_1200_2000_months. discriminate.
Qed.



Lemma ratio_decreasing c y1 y2 :
  0 < c -> y1 < y2 -> 0 < y1 * y2 -> c / y2 < c / y1.
Proof.
  intros Hc Hlt Hsign.
  assert (Hy1 : y1 <> 0) by (intros ->; lra).
  assert (Hy2 : y2 <> 0) by (intros ->; lra).
  assert (Hdiff : 0 < c / y1 - c / y2); [|lra].
  replace (c / y1 - c / y2) with (c * (y2 - y1) / (y1 * y2))
    by (field; split; assumption).
  apply Rdiv_lt_0_compat; [|assumption].
  apply Rmult_lt_0_compat; lra.
Qed.

(** A numeric payoff count determines the formula's value. *)
Lemma time_to_repay_number_inv a rate t u extra p count :
  check_loan_parameters a rate t u = None ->
  calculate_monthly_payment a rate t u = Ret (Num (Float p)) ->
  0 < 1 + rate / 12 / 100 ->
  calculate_time_to_repay a rate t u extra = Ret (Num (Float count)) ->
  p + extra <> 0 /\ 0 < log_argument a rate (p + extra) /\
  count = - ln (log_argument a rate (p + extra)) / ln (1 + rate / 12 / 100).
Proof.
  intros Hcheck Hpay Hbase.
  rewrite (time_to_repay_real_payment a rate t u extra p Hcheck Hpay Hbase).
  destruct (Req_dec_T (p + extra) 0); [discriminate|].
  destruct (Rlt_dec 0 _); [|discriminate].
  intros H. inversion H. auto.
Qed.

(** C7, as the code has it: on a valid loan with base payment [p], for
    extra payments [e1 < e2] on which the call returns a number both
    times and whose total payments [p + e1] and [p + e2] are both
    positive or both negative, the count for [e2] is not above the count
    for [e1]; this covers every pair with [0 <= e1]. *)
Theorem calculate_time_to_repay_monotone :
  forall amount rate term term_unit p e1 e2 count1 count2,
    0 < amount -> 0 < rate -> 0 < term ->
    term_unit = "months" \/ term_unit = "years" ->
    calculate_monthly_payment amount rate term term_unit
    = Ret (Num (Float p)) ->
    e1 < e2 ->
    calculate_time_to_repay amount rate term term_unit e1
    = Ret (Num (Float count1)) ->
    calculate_time_to_repay amount rate term term_unit e2
    = Ret (Num (Float count2)) ->
    (0 < p + e1 \/ p + e2 < 0 -> count2 <= count1) /\
    (0 <= e1 -> count2 <= count1).
Proof.
  intros a rate t u p e1 e2 n1 n2 Ha Hr Ht Hu Hpay He H1 H2.
  pose proof (check_positive a rate t u Ha Hr Ht Hu) as Hcheck.
  assert (Hbase : 0 < 1 + rate / 12 / 100) by lra.
  destruct (time_to_repay_number_inv a rate t u e1 p n1 Hcheck Hpay Hbase H1)
    as (Hs1 & Hx1 & ->).
  destruct (time_to_repay_number_inv a rate t u e2 p n2 Hcheck Hpay Hbase H2)
    as (Hs2 & Hx2 & ->).
  assert (Hmain : 0 < p + e1 \/ p + e2 < 0 ->
            - ln (log_argument a rate (p + e2)) / ln (1 + rate / 12 / 100)
            <= - ln (log_argument a rate (p + e1))
               / ln (1 + rate / 12 / 100)).
  { intros Hside. left.
    assert (Hsign : 0 < (p + e1) * (p + e2)).
    { destruct Hside.
      - apply Rmult_lt_0_compat; lra.
      - replace ((p + e1) * (p + e2)) with ((- (p + e1)) * (- (p + e2)))
          by ring.
        apply Rmult_lt_0_compat; lra. }
    assert (Hc : 0 < rate / 12 / 100 * a)
      by (apply Rmult_lt_0_compat; lra).
    pose proof (ratio_decreasing _ (p + e1) (p + e2) Hc ltac:(lra) Hsign)
      as Hratio.
    assert (Harg : log_argument a rate (p + e1)
                   < log_argument a rate (p + e2))
      by (unfold log_argument; lra).
    pose proof (ln_increasing _ _ Hx1 Harg) as Hln.
    assert (Hden : 0 < ln (1 + rate / 12 / 100))
      by (rewrite <- ln_1; apply ln_increasing; lra).
    unfold Rdiv. apply Rmult_lt_compat_r; [|lra].
    now apply Rinv_0_lt_compat. }
  split; [exact Hmain|].
  intros Hnonneg. apply Hmain. left.
  apply monthly_payment_positive_base_inv in Hpay; [|assumption..].
  pose proof (amortized_payment_positive a rate (payment_count t u) Ha Hr
                (payment_count_positive t u Ht)).
  lra.
Qed.

Lemma time_to_repay_1000_1200_1_months extra :
  calculate_time_to_repay 1000 1200 1 "months" extra
  = if Req_dec_T (2000 + extra) 0 then Raise ZeroDivisionError
    else if Rlt_dec 0 (1 - 1000 / (2000 + extra)) then
      Ret (Num (Float (- ln (1 - 1000 / (2000 + extra)) / ln 2)))
    else Raise ValueError.
Proof.
  rewrite (time_to_repay_real_payment 1000 1200 1 "months" extra 2000
             check_1000_1200_1_months payment_1000_1200_1_months)
    by lra.
  unfold log_argument.
  replace (1 + 1200 / 12 / 100) with 2 by lra.
  replace (1200 / 12 / 100 * 1000) with 1000 by lra.
  reflexivity.
Qed.

Lemma time_to_repay_extra_0 :
  calculate_time_to_repay 1000 1200 1 "months" 0 = Ret (Num (Float 1)).
Proof.
  rewrite time_to_repay_1000_1200_1_months.
  destruct (Req_dec_T (2000 + 0) 0); [lra|].
  replace (1 - 1000 / (2000 + 0)) with (/ 2) by lra.
  destruct (Rlt_dec 0 (/ 2)); [|lra].
  rewrite ln_Rinv by lra.
  do 3 f_equal. field. apply ln_neq_0; lra.
Qed.

Lemma time_to_repay_extra_minus_3000 :
  calculate_time_to_repay 1000 1200 1 "months" (-3000)
  = Ret (Num (Float (-1))).
Proof.
  rewrite time_to_repay_1000_1200_1_months.
  destruct (Req_dec_T (2000 + -3000) 0); [lra|].
  replace (1 - 1000 / (2000 + -3000)) with 2 by lra.
  destruct (Rlt_dec 0 2); [|lra].
  do 3 f_equal. field. apply ln_neq_0; lra.
Qed.

Lemma time_to_repay_extra_minus_1500 :
  calculate_time_to_repay 1000 1200 1 "months" (-1500) = Raise ValueError.
Proof.
  rewrite time_to_repay_1000_1200_1_months.
  destruct (Req_dec_T (2000 + -1500) 0); [lra|].
  replace (1 - 1000 / (2000 + -1500)) with (-1) by lra.
  destruct (Rlt_dec 0 (-1)); [lra | reflexivity].
Qed.

(** C7 as stated fails: on the valid loan of 1000 at 1200 percent over one
    month, the extra payments -3000 and 0 both give a number, and the
    larger extra payment gives the larger count. *)
Lemma calculate_time_to_repay_not_decreasing :
  check_loan_parameters 1000 1200 1 "months" = None /\
  calculate_time_to_repay 1000 1200 1 "months" (-3000)
  = Ret (Num (Float (-1))) /\
  calculate_time_to_repay 1000 1200 1 "months" 0 = Ret (Num (Float 1)) /\
  -3000 < 0 /\ ~ (1 < -1).
Proof.
  repeat split.
  - exact check_1000_1200_1_months.
  - exact time_to_repay_extra_minus_3000.
  - exact time_to_repay_extra_0.
  - lra.
  - lra.
Qed.

(** C2 as stated fails: on the same loan an extra payment of -1500 passes
    the validator, puts the logarithm argument at -1, and the call raises
    [ValueError] instead of returning an error result. *)
Lemma calculate_time_to_repay_domain_error_escapes :
  check_loan_parameters 1000 1200 1 "months" = None /\
  calculate_monthly_payment 1000 1200 1 "months" = Ret (Num (Float 2000)) /\
  log_argument 1000 1200 (2000 + -1500) = -1 /\
  calculate_time_to_repay 1000 1200 1 "months" (-1500) = Raise ValueError /\
  (forall message,
      calculate_time_to_repay 1000 1200 1 "months" (-1500)
      <> Ret (Str message)).
Proof.
  repeat split.
  - exact check_1000_1200_1_months.
  - exact payment_1000_1200_1_months.
  - unfold log_argument. lra.
  - exact time_to_repay_extra_minus_1500.
  - intros m. rewrite time_to_repay_extra_minus_1500. discriminate.
Qed.

Lemma time_to_repay_extra_2000 :
  calculate_time_to_repay 1000 1200 1 "months" 2000
  = Ret (Num (Float (- ln (1 - 1000 / (2000 + 2000)) / ln 2))).
Proof.
  rewrite time_to_repay_1000_1200_1_months.
  destruct (Req_dec_T (2000 + 2000) 0); [lra|].
  destruct (Rlt_dec 0 (1 - 1000 / (2000 + 2000))); [reflexivity | lra].
Qed.

Lemma calculate_time_to_repay_monotone_witness :
  - ln (1 - 1000 / (2000 + 2000)) / ln 2 <= 1.
Proof.
  apply (proj2 (calculate_time_to_repay_monotone
                  1000 1200 1 "months" 2000 0 2000 1
                  (- ln (1 - 1000 / (2000 + 2000)) / ln 2)
                  ltac:(lra) ltac:(lra) ltac:(lra)
                  (or_introl eq_refl)
                  payment_1000_1200_1_months ltac:(lra)
                  time_to_repay_extra_0 time_to_repay_extra_2000)).
  lra.
Defined.



Lemma calculate_time_to_repay_outside_domain_witness :
  calculate_time_to_repay 1000 1200 1 "months" (-3000)
  = Ret (Num (Float (- ln (log_argument 1000 1200 (2000 + -3000))
                     / ln (1 + 1200 / 12 / 100)))).
Proof.
  pose proof (calculate_time_to_repay_outside_domain
                1000 1200 1 "months" (-3000) 2000
                check_1000_1200_1_months payment_1000_1200_1_months
                ltac:(lra) ltac:(lra)) as H.
  cbv zeta in H. apply H. unfold log_argument. lra.
Defined.

(** ** The monthly take-home salary *)

Lemma takehome_100000_25_12000 :
  calculate_monthly_takehome 100000 25 12000 = Num (Float 5250).
Proof.
  unfold calculate_monthly_takehome.
  destruct (Req_dec_T 100000 0); [lra|].
  do 2 f_equal. lra.
Qed.

(** C4, as the code has it: the take-home function returns a message
    exactly when the base salary is zero, and otherwise the number
    [(baseSalary * (1 - rate/100) - savings) / 12], whatever the sign of
    the rate and the size of the savings; on (100000, 25, 12000) that
    number is 5250. *)
Theorem calculate_monthly_takehome_spec :
  (forall salary_base effective_tax_rate annual_savings,
      ((exists message,
           calculate_monthly_takehome salary_base effective_tax_rate
                                      annual_savings = Str message)
       <-> salary_base = 0) /\
      (salary_base <> 0 ->
       calculate_monthly_takehome salary_base effective_tax_rate
                                  annual_savings
       = Num (Float ((salary_base * (1 - effective_tax_rate / 100)
                      - annual_savings) / 12)))) /\
  calculate_monthly_takehome 100000 25 12000 = Num (Float 5250).
Proof.
  split; [|exact takehome_100000_25_12000].
  intros s tax sav. unfold calculate_monthly_takehome.
  destruct (Req_dec_T s 0) as [Hs|Hs].
  - split; [|contradiction]. split; [trivial | eauto].
  - split; [|reflexivity]. split; [|contradiction].
    intros [m Hm]. discriminate.
Qed.

Lemma calculate_monthly_takehome_spec_witness :
  calculate_monthly_takehome (-50000) (-10) 70000
  = Num (Float ((-50000 * (1 - -10 / 100) - 70000) / 12)).
Proof.
  apply (proj2 (proj1 calculate_monthly_takehome_spec (-50000) (-10) 70000)).
  lra.
Defined.

(** C4 as stated fails on its example: the take-home on
    (100000, 25, 12000) is 5250, not 5125. *)
Lemma calculate_monthly_takehome_example_not_5125 :
  calculate_monthly_takehome 100000 25 12000 = Num (Float 5250) /\
  calculate_monthly_takehome 100000 25 12000 <> Num (Float 5125).
Proof.
  split; [exact takehome_100000_25_12000|].
  rewrite takehome_100000_25_12000. intros H. inversion H. lra.
Qed.

(** ** The net take-home handler *)

(** C5: with a loan amount of 0 the handler takes 0 for the base payment
    and for the extra payment, whatever the extra-payment field holds and
    whatever function is bound to the payment function's name (it is not
    called), so it shows [takehome - 0 - 0], or the salary's message, and
    never the validator's loan-amount message; with a loan amount that is
    not 0 and numeric upstream results it shows
    [takehome - basePayment - extraPayment]. *)
Theorem call_calculate_monthly_takehome_net :
  forall e : entries,
    (Loan_Amount e = 0 ->
     forall payment_fn,
       call_calculate_monthly_takehome_with payment_fn e
       = match calculate_monthly_takehome (Salary e) (Effective_Tax_Rate e)
                                          (Annual_Savings_Target e) with
         | Num takehome =>
             Ret (Fixed2 (sub (sub takehome (Float 0)) (Float 0)))
         | Str message => Ret (Text message)
         end /\
       call_calculate_monthly_takehome_with payment_fn e
       <> Ret (Text "Please enter valid loan amount")) /\
    (Loan_Amount e <> 0 ->
     forall takehome payment,
       calculate_monthly_takehome (Salary e) (Effective_Tax_Rate e)
                                  (Annual_Savings_Target e) = Num takehome ->
       calculate_monthly_payment (Loan_Amount e) (Annual_Interest_Rate e)
                                 (Loan_Term e) (Loan_Term_Units e)
       = Ret (Num payment) ->
       call_calculate_monthly_takehome e
       = Ret (Fixed2 (sub (sub takehome payment)
                          (Float (Additional_Monthly_Payment e))))).
Proof.
  intros e. split.
  - intros Hzero payment_fn. unfold call_calculate_monthly_takehome_with.
    destruct (Req_dec_T (Loan_Amount e) 0); [|contradiction].
    cbn [bind fst snd]. unfold calculate_monthly_takehome.
    destruct (Req_dec_T (Salary e) 0); split;
      try reflexivity; discriminate.
  - intros Hloan takehome payment Htake Hpay.
    unfold call_calculate_monthly_takehome,
      call_calculate_monthly_takehome_with.
    destruct (Req_dec_T (Loan_Amount e) 0); [contradiction|].
    rewrite Hpay, Htake. reflexivity.
Qed.

Lemma call_calculate_monthly_takehome_net_witness :
  call_calculate_monthly_takehome
    {| Loan_Amount := 0; Annual_Interest_Rate := 4.5; Loan_Term := 30;
       Loan_Term_Units := "years"; Additional_Monthly_Payment := 300;
       Salary := 100000; Effective_Tax_Rate := 25;
       Annual_Savings_Target := 12000 |}
  <> Ret (Text "Please enter valid loan amount").
Proof.
  apply (proj1 (call_calculate_monthly_takehome_net
                  {| Loan_Amount := 0; Annual_Interest_Rate := 4.5;
                     Loan_Term := 30; Loan_Term_Units := "years";
                     Additional_Monthly_Payment := 300;
                     Salary := 100000; Effective_Tax_Rate := 25;
                     Annual_Savings_Target := 12000 |})
               eq_refl calculate_monthly_payment).
Defined.

(** ** Further facts on the calculation functions *)

(** X1: on every input, valid or not, a term in years gives the outcome
    of twelve times that term in months, for the payment and for the time
    to repay alike: the same number, the same message or the same
    exception. *)
Theorem years_as_months :
  forall amount rate term extra,
    calculate_monthly_payment amount rate term "years"
    = calculate_monthly_payment amount rate (term * 12) "months" /\
    calculate_time_to_repay amount rate term "years" extra
    = calculate_time_to_repay amount rate (term * 12) "months" extra.
Proof.
  intros a rate t extra. split; [apply monthly_payment_years_months|].
  unfold calculate_time_to_repay.
  rewrite check_years_months, monthly_payment_years_months.
  reflexivity.
Qed.

Lemma sin_PI_times_nonzero n : n <> IZR (Zfloor n) -> sin (PI * n) <> 0.
Proof.
  intros Hn Hsin. apply sin_eq_0_0 in Hsin as [k Hk].
  assert (HPI : PI <> 0) by (pose proof PI_RGT_0; lra).
  assert (Heq : n = IZR k).
  { apply Rmult_eq_reg_l with PI; [|assumption]. lra. }
  apply Hn. rewrite Heq at 2. now rewrite ZfloorZ.
Qed.

(** The payment when the growth is a complex number [gr + gi j] off the
    real axis: it is complex and off the real axis too. *)
Lemma monthly_payment_complex_growth a rate t u gr gi :
  check_loan_parameters a rate t u = None ->
  pow (1 + rate / 12 / 100) (payment_count t u) = Ret (Complex gr gi) ->
  gi <> 0 ->
  exists re im,
    calculate_monthly_payment a rate t u = Ret (Num (Complex re im)) /\
    im <> 0.
Proof.
  intros Hcheck Hpow Hgi. unfold calculate_monthly_payment.
  rewrite Hcheck. apply check_passes in Hcheck as (Ha & Hr & _ & Hu).
  rewrite (number_of_payments_eq t u Hu). cbn [bind].
  rewrite Hpow. cbn [bind mul sub div real imag].
  set (c := a * (rate / 12) / 100).
  assert (Hc : c <> 0).
  { subst c. unfold Rdiv. repeat apply Rmult_integral_contrapositive_currified;
      trivial; apply Rinv_neq_0_compat; lra. }
  assert (Hsq : 0 < gi * gi)
    by (destruct (Rtotal_order gi 0) as [?|[?|?]]; [nra|contradiction|nra]).
  assert (Hnorm : 0 < (gr - 1) * (gr - 1) + (gi - 0) * (gi - 0)).
  { pose proof (Rle_0_sqr (gr - 1)) as Hre. unfold Rsqr in Hre.
    replace (gi - 0) with gi by ring. lra. }
  assert (Him : ((c * gi + 0 * gr) * (gr - 1) - (c * gr - 0 * gi) * (gi - 0))
                / ((gr - 1) * (gr - 1) + (gi - 0) * (gi - 0)) <> 0).
  { replace ((c * gi + 0 * gr) * (gr - 1) - (c * gr - 0 * gi) * (gi - 0))
      with (- (c * gi)) by ring.
    unfold Rdiv. apply Rmult_integral_contrapositive_currified.
    - apply Ropp_neq_0_compat.
      now apply Rmult_integral_contrapositive_currified.
    - apply Rinv_neq_0_compat. lra. }
  destruct (Req_dec_T (gr - 1) 0);
    [destruct (Req_dec_T (gi - 0) 0); [lra|]|];
    cbn [bind]; eauto.
Qed.

(** A complex power comes from a negative base and an exponent that is
    not whole. *)
Lemma pow_complex_inv b n gr gi :
  pow b n = Ret (Complex gr gi) -> b < 0 /\ n <> IZR (Zfloor n).
Proof.
  unfold pow.
  destruct (Req_dec_T n 0); [discriminate|].
  destruct (Req_dec_T b 0); [destruct (Rlt_dec n 0); discriminate|].
  destruct (Rlt_dec b 0) as [Hb|_].
  - destruct (Req_dec_T n (IZR (Zfloor n))) as [|Hn].
    + destruct (Rlt_dec float_max _); discriminate.
    + intros _. auto.
  - destruct (Rlt_dec float_max _); discriminate.
Qed.

(** A complex payment comes from a complex growth. *)
Lemma monthly_payment_complex_inv a rate t u re im :
  calculate_monthly_payment a rate t u = Ret (Num (Complex re im)) ->
  check_loan_parameters a rate t u = None /\
  exists gr gi,
    pow (1 + rate / 12 / 100) (payment_count t u) = Ret (Complex gr gi).
Proof.
  unfold calculate_monthly_payment.
  destruct (check_loan_parameters a rate t u) eqn:Hcheck; [discriminate|].
  pose proof Hcheck as Hparts.
  apply check_passes in Hparts as (_ & _ & _ & Hu).
  rewrite (number_of_payments_eq t u Hu). cbn [bind].
  destruct (pow _ _) as [[growth|gr gi]|e]; cbn [bind mul sub div].
  - destruct (Req_dec_T (growth - 1) 0); cbn [bind]; discriminate.
  - intros _. split; [reflexivity | eauto].
  - discriminate.
Qed.

(** X6: the payment function returns a complex number only on an annual
    rate below -1200 percent with a number of payments that is not whole,
    and on such a payment the time to repay never returns: it raises
    [TypeError] at its logarithm, or [ZeroDivisionError] when the
    payment plus the extra payment is the complex zero. *)
Theorem calculate_time_to_repay_complex_payment :
  forall amount rate term term_unit extra re im,
    calculate_monthly_payment amount rate term term_unit
    = Ret (Num (Complex re im)) ->
    rate < -1200 /\
    payment_count term term_unit
    <> IZR (Zfloor (payment_count term term_unit)) /\
    (re + extra <> 0 \/ im <> 0 ->
     calculate_time_to_repay amount rate term term_unit extra
     = Raise TypeError) /\
    (re + extra = 0 -> im = 0 ->
     calculate_time_to_repay amount rate term term_unit extra
     = Raise ZeroDivisionError).
Proof.
  intros a rate t u extra re im Hpay.
  destruct (monthly_payment_complex_inv a rate t u re im Hpay)
    as (Hcheck & gr & gi & Hpow).
  apply pow_complex_inv in Hpow as [Hb Hn].
  split; [lra|]. split; [exact Hn|].
  unfold calculate_time_to_repay. rewrite Hcheck, Hpay.
  cbn [bind add div real imag].
  split.
  - intros Hnonzero.
    destruct (Req_dec_T (re + extra) 0);
      [destruct (Req_dec_T (im + 0) 0); [exfalso; destruct Hnonzero; lra|]|];
      reflexivity.
  - intros Hre Him.
    destruct (Req_dec_T (re + extra) 0); [|contradiction].
    destruct (Req_dec_T (im + 0) 0); [reflexivity | lra].
Qed.

Lemma calculate_time_to_repay_complex_payment_witness :
  calculate_time_to_repay 1000 (-2400) 0.5 "months" 0 = Raise TypeError.
Proof.
  assert (Hfloor : Zfloor 0.5 = 0%Z) by (apply Zfloor_eq; lra).
  assert (Hcheck : check_loan_parameters 1000 (-2400) 0.5 "months" = None).
  { apply check_passes. repeat split; try lra. now left. }
  assert (Hpow : pow (1 + -2400 / 12 / 100) (payment_count 0.5 "months")
                 = Ret (Complex (Rpower 1 0.5 * cos (PI * 0.5))
                                (Rpower 1 0.5 * sin (PI * 0.5)))).
  { unfold payment_count. cbn [String.eqb Ascii.eqb Bool.eqb].
    replace (1 + -2400 / 12 / 100) with (-1) by lra.
    unfold pow.
    destruct (Req_dec_T 0.5 0); [lra|].
    destruct (Req_dec_T (-1) 0); [lra|].
    destruct (Rlt_dec (-1) 0); [|lra].
    rewrite Hfloor.
    destruct (Req_dec_T 0.5 0); [lra|].
    replace (- -1) with 1 by lra.
    destruct (Rlt_dec float_max (Rpower 1 0.5)) as [Hover|_];
      [|reflexivity].
    pose proof (Rpower_in_range 1 0.5 ltac:(lra) ltac:(lra)). lra. }
  assert (Hgi : Rpower 1 0.5 * sin (PI * 0.5) <> 0).
  { apply Rmult_integral_contrapositive_currified.
    - pose proof (exp_pos (0.5 * ln 1)). unfold Rpower. lra.
    - apply sin_PI_times_nonzero. rewrite Hfloor. lra. }
  destruct (monthly_payment_complex_growth 1000 (-2400) 0.5 "months" _ _
              Hcheck Hpow Hgi) as (re & im & Hpay & Him).
  apply (proj1 (proj2 (proj2 (calculate_time_to_repay_complex_payment
                                1000 (-2400) 0.5 "months" 0 re im Hpay)))).
  right. exact Him.
Defined.

(** ** Facts on the form *)

Lemma append_empty_r (s : string) : s ++ "" = s.
Proof. induction s as [|c s IH]; cbn; [reflexivity | now rewrite IH]. Qed.

Lemma text_set_text_same entries f s :
  Form.text (Form.set_text entries f s) f = s.
Proof.
  cbn. destruct (Form.field_eq_dec f f); [reflexivity | contradiction].
Qed.

Lemma text_set_text_other entries f g s :
  g <> f -> Form.text (Form.set_text entries f s) g = Form.text entries g.
Proof.
  intros Hg. cbn.
  destruct (Form.field_eq_dec g f); [contradiction | reflexivity].
Qed.

(** Writing [s] to an emptied entry leaves [s] in it. *)
Lemma text_written entries f s :
  Form.text (Form.insert_front (Form.delete_all entries f) f s) f = s.
Proof.
  unfold Form.insert_front, Form.delete_all.
  now rewrite !text_set_text_same, append_empty_r.
Qed.

Lemma text_written_other entries f g s :
  g <> f ->
  Form.text (Form.insert_front (Form.delete_all entries f) f s) g
  = Form.text entries g.
Proof.
  intros Hg. unfold Form.insert_front, Form.delete_all.
  now rewrite !text_set_text_other.
Qed.

(** The text of an entry after [fill_missing_fields]. *)
Lemma fill_missing_fields_text_eq fields_to_fill :
  forall entries f,
    Form.text (Form.fill_missing_fields entries fields_to_fill) f
    = if in_dec Form.field_eq_dec f fields_to_fill then
        if Form.strip (Form.text entries f) =? "" then "0"
        else Form.text entries f
      else Form.text entries f.
Proof.
  induction fields_to_fill as [|g rest IH]; intros entries f;
    [reflexivity|].
  cbn [Form.fill_missing_fields]. rewrite IH.
  destruct (Form.field_eq_dec g f) as [->|Hgf].
  - destruct (in_dec Form.field_eq_dec f (f :: rest)) as [_|Hout];
      [|exfalso; apply Hout; now left].
    destruct (Form.strip (Form.text entries f) =? "") eqn:Hblank.
    + rewrite text_written. cbn [Form.strip Form.lstrip Form.rstrip].
      destruct (in_dec _ f rest); reflexivity.
    + rewrite Hblank. destruct (in_dec _ f rest); reflexivity.
  - assert (Hsame : Form.text
                      (if Form.strip (Form.text entries g) =? "" then
                         Form.insert_front (Form.delete_all entries g) g "0"
                       else entries) f
                    = Form.text entries f).
    { destruct (_ =? ""); [|reflexivity].
      apply text_written_other. congruence. }
    rewrite Hsame.
    destruct (in_dec _ f rest) as [Hin|Hout],
             (in_dec _ f (g :: rest)) as [Hin'|Hout'];
      try reflexivity.
    + exfalso. apply Hout'. now right.
    + exfalso. destruct Hin' as [Heq|Hin']; [congruence | contradiction].
Qed.

Lemma fill_missing_fields_units fields_to_fill :
  forall entries,
    Form.loan_term_units (Form.fill_missing_fields entries fields_to_fill)
    = Form.loan_term_units entries /\
    Form.repay_time_units (Form.fill_missing_fields entries fields_to_fill)
    = Form.repay_time_units entries.
Proof.
  induction fields_to_fill as [|g rest IH]; intros entries;
    [split; reflexivity|].
  cbn [Form.fill_missing_fields].
  destruct (IH (if Form.strip (Form.text entries g) =? "" then
                  Form.insert_front (Form.delete_all entries g) g "0"
                else entries)) as [H1 H2].
  rewrite H1, H2. destruct (_ =? ""); split; reflexivity.
Qed.

Lemma fill_missing_fields_blank entries fields_to_fill f :
  In f fields_to_fill -> Form.strip (Form.text entries f) = "" ->
  Form.text (Form.fill_missing_fields entries fields_to_fill) f = "0".
Proof.
  intros Hin Hblank. rewrite fill_missing_fields_text_eq.
  destruct (in_dec _ f fields_to_fill); [|contradiction].
  now rewrite Hblank.
Qed.

Lemma fill_missing_fields_kept entries fields_to_fill f :
  ~ In f fields_to_fill \/ Form.strip (Form.text entries f) <> "" ->
  Form.text (Form.fill_missing_fields entries fields_to_fill) f
  = Form.text entries f.
Proof.
  intros Hkeep. rewrite fill_missing_fields_text_eq.
  destruct (in_dec _ f fields_to_fill) as [Hin|_]; [|reflexivity].
  destruct (String.eqb_spec (Form.strip (Form.text entries f)) "");
    [|reflexivity].
  destruct Hkeep; contradiction.
Qed.

(** X7: [fill_missing_fields] puts "0" in every listed entry whose text
    strips to the empty string, and leaves the text of every other entry,
    listed or not, and the two unit selections as they were. *)
Theorem fill_missing_fields_effect :
  forall entries fields_to_fill f,
    (In f fields_to_fill -> Form.strip (Form.text entries f) = "" ->
     Form.text (Form.fill_missing_fields entries fields_to_fill) f = "0") /\
    (~ In f fields_to_fill \/ Form.strip (Form.text entries f) <> "" ->
     Form.text (Form.fill_missing_fields entries fields_to_fill) f
     = Form.text entries f) /\
    Form.loan_term_units (Form.fill_missing_fields entries fields_to_fill)
    = Form.loan_term_units entries /\
    Form.repay_time_units (Form.fill_missing_fields entries fields_to_fill)
    = Form.repay_time_units entries.
Proof.
  intros entries l f. split; [|split].
  - apply fill_missing_fields_blank.
  - apply fill_missing_fields_kept.
  - apply fill_missing_fields_units.
Qed.

Lemma fill_missing_fields_effect_witness :
  Form.text
    (Form.fill_missing_fields
       (Form.set_text Form.make_form Form.Loan_Term "  ")
       [Form.Loan_Amount; Form.Loan_Term])
    Form.Loan_Term = "0".
Proof.
  apply (proj1 (fill_missing_fields_effect
                  (Form.set_text Form.make_form Form.Loan_Term "  ")
                  [Form.Loan_Amount; Form.Loan_Term] Form.Loan_Term)).
  - right; left; reflexivity.
  - reflexivity.
Defined.

(** X8: after [fill_missing_fields] no listed entry is blank, and filling
    the same entries again changes no text. *)
Theorem fill_missing_fields_settles :
  forall entries fields_to_fill f,
    (In f fields_to_fill ->
     Form.strip
       (Form.text (Form.fill_missing_fields entries fields_to_fill) f)
     <> "") /\
    Form.text
      (Form.fill_missing_fields
         (Form.fill_missing_fields entries fields_to_fill) fields_to_fill) f
    = Form.text (Form.fill_missing_fields entries fields_to_fill) f.
Proof.
  intros entries l f.
  assert (Hfilled : In f l ->
            Form.strip (Form.text (Form.fill_missing_fields entries l) f)
            <> "").
  { intros Hin. rewrite fill_missing_fields_text_eq.
    destruct (in_dec _ f l); [|contradiction].
    destruct (String.eqb_spec (Form.strip (Form.text entries f)) "");
      [discriminate | assumption]. }
  split; [exact Hfilled|].
  apply fill_missing_fields_kept.
  destruct (in_dec Form.field_eq_dec f l); [right; auto | left; assumption].
Qed.

Lemma fill_missing_fields_settles_witness :
  Form.strip
    (Form.text
       (Form.fill_missing_fields
          (Form.set_text Form.make_form Form.Salary "")
          [Form.Salary]) Form.Salary)
  <> "".
Proof.
  apply (proj1 (fill_missing_fields_settles
                  (Form.set_text Form.make_form Form.Salary "")
                  [Form.Salary] Form.Salary)).
  left; reflexivity.
Defined.

(** ** Facts on the button handlers *)

Lemma touches_only_frame output filled r g :
  Form.touches_only output filled r -> g <> output ->
  Form.text (Form.final r) g = Form.text filled g /\
  Form.loan_term_units (Form.final r) = Form.loan_term_units filled /\
  Form.repay_time_units (Form.final r) = Form.repay_time_units filled.
Proof.
  intros [->|[->|[s ->]]] Hg.
  - repeat split.
  - unfold Form.delete_all. rewrite text_set_text_other by assumption.
    repeat split.
  - rewrite text_written_other by assumption. repeat split.
Qed.

Lemma check_message_cases a rate t u message :
  check_loan_parameters a rate t u = Some message ->
  message = "Please enter valid loan amount" \/
  message = "Please enter valid interest rate" \/
  message = "Please enter valid loan term" \/
  message = "Please select 'years' or 'months' for the loan term".
Proof.
  unfold check_loan_parameters.
  destruct (Req_dec_T a 0); [intros H; inversion H; tauto|].
  destruct (Req_dec_T rate 0); [intros H; inversion H; tauto|].
  destruct (Req_dec_T t 0); [intros H; inversion H; tauto|].
  destruct (_ && _); [intros H; inversion H; tauto | discriminate].
Qed.

Lemma time_to_repay_message a rate t u extra message :
  check_loan_parameters a rate t u = Some message ->
  calculate_time_to_repay a rate t u extra = Ret (Str message).
Proof.
  intros Hcheck. unfold calculate_time_to_repay. now rewrite Hcheck.
Qed.

Lemma monthly_payment_message a rate t u message :
  check_loan_parameters a rate t u = Some message ->
  calculate_monthly_payment a rate t u = Ret (Str message).
Proof.
  intros Hcheck. unfold calculate_monthly_payment. now rewrite Hcheck.
Qed.

Section HandlerFacts.

Variable float : string -> outcome R.
Variable format_2f : num -> string.
Variable format_1f : num -> string.

Local Abbreviation loan_fields :=
  [Form.Loan_Amount; Form.Annual_Interest_Rate; Form.Loan_Term;
   Form.Additional_Monthly_Payment].

Local Abbreviation all_fields :=
  [Form.Loan_Amount; Form.Annual_Interest_Rate; Form.Loan_Term;
   Form.Additional_Monthly_Payment; Form.Salary; Form.Effective_Tax_Rate;
   Form.Annual_Savings_Target].

Lemma time_to_repay_touches entries :
  Form.touches_only Form.Time_to_Repay
    (Form.fill_missing_fields entries loan_fields)
    (Form.call_calculate_time_to_repay float format_1f entries).
Proof.
  unfold Form.call_calculate_time_to_repay, Form.touches_only. cbv zeta.
  set (filled := Form.fill_missing_fields entries loan_fields).
  destruct (float (Form.text filled Form.Loan_Amount)); cbn [bind]; auto.
  destruct (float (Form.text filled Form.Annual_Interest_Rate));
    cbn [bind]; auto.
  destruct (float (Form.text filled Form.Loan_Term)); cbn [bind]; auto.
  destruct (float (Form.text filled Form.Additional_Monthly_Payment));
    cbn [bind]; auto.
  destruct (calculate_time_to_repay _ _ _ _ _) as [v|]; auto.
  destruct (_ =? "months").
  { destruct (Form.ceil v); cbn [Form.final]; eauto. }
  destruct (_ =? "years").
  { destruct (Form.div_12 v); cbn [Form.final]; eauto. }
  cbn [Form.final]; eauto.
Qed.

Lemma total_monthly_payment_touches entries :
  Form.touches_only Form.Total_Monthly_Payment
    (Form.fill_missing_fields entries loan_fields)
    (Form.call_calculate_total_monthly_payment float format_2f entries).
Proof.
  unfold Form.call_calculate_total_monthly_payment, Form.touches_only.
  cbv zeta.
  set (filled := Form.fill_missing_fields entries loan_fields).
  destruct (float (Form.text filled Form.Loan_Amount)); cbn [bind]; auto.
  destruct (float (Form.text filled Form.Annual_Interest_Rate));
    cbn [bind]; auto.
  destruct (float (Form.text filled Form.Loan_Term)); cbn [bind]; auto.
  destruct (calculate_monthly_payment _ _ _ _) as [[base|message]|]; auto.
  - destruct (float _); cbn [Form.final]; eauto.
  - cbn [Form.final]; eauto.
Qed.

Lemma monthly_takehome_touches entries :
  Form.touches_only Form.Monthly_Takehome_Salary
    (Form.fill_missing_fields entries all_fields)
    (Form.call_calculate_monthly_takehome float format_2f entries).
Proof.
  unfold Form.call_calculate_monthly_takehome, Form.touches_only.
  cbv zeta.
  set (filled := Form.fill_missing_fields entries all_fields).
  destruct (float (Form.text filled Form.Salary)); cbn [bind]; auto.
  destruct (float (Form.text filled Form.Effective_Tax_Rate));
    cbn [bind]; auto.
  destruct (float (Form.text filled Form.Annual_Savings_Target));
    cbn [bind]; auto.
  destruct (float (Form.text filled Form.Loan_Amount)) as [loan_amount|];
    cbn [bind]; auto.
  destruct (Req_dec_T loan_amount 0); cbn [bind].
  - destruct (calculate_monthly_takehome _ _ _);
      cbn [Form.final]; eauto.
  - destruct (float (Form.text filled Form.Annual_Interest_Rate));
      cbn [bind]; auto.
    destruct (float (Form.text filled Form.Loan_Term)); cbn [bind]; auto.
    destruct (calculate_monthly_payment _ _ _ _) as [base|];
      cbn [bind]; auto.
    destruct (float (Form.text filled Form.Additional_Monthly_Payment));
      cbn [bind]; auto.
    destruct (calculate_monthly_takehome _ _ _), base;
      cbn [Form.final]; eauto.
Qed.

(** X9: whatever the entries hold and however it ends, each handler
    changes no text but that of its own output entry beyond the "0" that
    [fill_missing_fields] puts in blank entries, and leaves the two unit
    selections as they were. *)
Theorem handlers_touch_only_their_output :
  forall entries g,
    (g <> Form.Time_to_Repay ->
     let after :=
       Form.final (Form.call_calculate_time_to_repay float format_1f
                                                     entries) in
     Form.text after g
     = Form.text (Form.fill_missing_fields entries loan_fields) g /\
     Form.loan_term_units after = Form.loan_term_units entries /\
     Form.repay_time_units after = Form.repay_time_units entries) /\
    (g <> Form.Total_Monthly_Payment ->
     let after :=
       Form.final (Form.call_calculate_total_monthly_payment
                     float format_2f entries) in
     Form.text after g
     = Form.text (Form.fill_missing_fields entries loan_fields) g /\
     Form.loan_term_units after = Form.loan_term_units entries /\
     Form.repay_time_units after = Form.repay_time_units entries) /\
    (g <> Form.Monthly_Takehome_Salary ->
     let after :=
       Form.final (Form.call_calculate_monthly_takehome
                     float format_2f entries) in
     Form.text after g
     = Form.text (Form.fill_missing_fields entries all_fields) g /\
     Form.loan_term_units after = Form.loan_term_units entries /\
     Form.repay_time_units after = Form.repay_time_units entries).
Proof.
  intros entries g.
  pose proof (fill_missing_fields_units loan_fields entries) as [Hl1 Hl2].
  pose proof (fill_missing_fields_units all_fields entries) as [Ha1 Ha2].
  split; [|split]; intros Hg; cbv zeta.
  - destruct (touches_only_frame _ _ _ g (time_to_repay_touches entries) Hg)
      as (Htext & Hu1 & Hu2).
    rewrite Htext, Hu1, Hu2. auto.
  - destruct (touches_only_frame _ _ _ g
                (total_monthly_payment_touches entries) Hg)
      as (Htext & Hu1 & Hu2).
    rewrite Htext, Hu1, Hu2. auto.
  - destruct (touches_only_frame _ _ _ g (monthly_takehome_touches entries)
                Hg)
      as (Htext & Hu1 & Hu2).
    rewrite Htext, Hu1, Hu2. auto.
Qed.

(** X10: when the validator rejects the loan parameters, the time-to-repay
    handler never shows the validator's message: with the repay unit on
    "months" or "years" it raises [TypeError] on the message and leaves
    the output entry empty, and with any other repay unit it shows the
    request to select a unit. *)
Theorem time_to_repay_handler_hides_validator_message :
  forall entries a r t x message,
    let filled := Form.fill_missing_fields entries loan_fields in
    float (Form.text filled Form.Loan_Amount) = Ret a ->
    float (Form.text filled Form.Annual_Interest_Rate) = Ret r ->
    float (Form.text filled Form.Loan_Term) = Ret t ->
    float (Form.text filled Form.Additional_Monthly_Payment) = Ret x ->
    check_loan_parameters a r t (Form.loan_term_units entries)
    = Some message ->
    let result :=
      Form.call_calculate_time_to_repay float format_1f entries in
    (Form.repay_time_units entries = "months" \/
     Form.repay_time_units entries = "years" ->
     result
     = Form.Escaped TypeError
         (Form.delete_all filled Form.Time_to_Repay)) /\
    (Form.repay_time_units entries <> "months" ->
     Form.repay_time_units entries <> "years" ->
     result
     = Form.Done
         (Form.insert_front (Form.delete_all filled Form.Time_to_Repay)
            Form.Time_to_Repay "Please select 'years' or 'months'")) /\
    Form.text (Form.final result) Form.Time_to_Repay <> message.
Proof.
  intros entries a r t x message filled Ha Hr Ht Hx Hcheck result.
  pose proof (fill_missing_fields_units loan_fields entries) as [Hu1 Hu2].
  fold filled in Hu1, Hu2.
  assert (Hshape :
    result
    = if Form.repay_time_units entries =? "months" then
        Form.Escaped TypeError (Form.delete_all filled Form.Time_to_Repay)
      else if Form.repay_time_units entries =? "years" then
        Form.Escaped TypeError (Form.delete_all filled Form.Time_to_Repay)
      else
        Form.Done
          (Form.insert_front (Form.delete_all filled Form.Time_to_Repay)
             Form.Time_to_Repay "Please select 'years' or 'months'")).
  { subst result. unfold Form.call_calculate_time_to_repay. cbv zeta.
    fold filled. rewrite Ha, Hr, Ht, Hx. cbn [bind]. rewrite Hu1.
    rewrite (time_to_repay_message a r t _ x message Hcheck).
    cbn [Form.repay_time_units Form.delete_all Form.set_text].
    rewrite Hu2. reflexivity. }
  rewrite Hshape. clear Hshape.
  apply check_message_cases in Hcheck.
  destruct (String.eqb_spec (Form.repay_time_units entries) "months")
    as [Hm|Hm];
    [|destruct (String.eqb_spec (Form.repay_time_units entries) "years")
        as [Hy|Hy]].
  - repeat split; try contradiction.
    cbn [Form.final]. unfold Form.delete_all.
    rewrite text_set_text_same.
    destruct Hcheck as [->|[->|[->| ->]]]; discriminate.
  - repeat split; try contradiction.
    cbn [Form.final]. unfold Form.delete_all.
    rewrite text_set_text_same.
    destruct Hcheck as [->|[->|[->| ->]]]; discriminate.
  - repeat split; try (intros [?|?]; contradiction).
    cbn [Form.final]. rewrite text_written.
    destruct Hcheck as [->|[->|[->| ->]]]; discriminate.
Qed.

(** X11: once amount, rate and term are read, the total-payment handler
    shows the validator's message without reading the extra payment when
    the validator rejects them; when the payment function returns a
    number it shows that number plus the extra payment in two decimals,
    and an extra payment that is not a number lets the exception of
    [float] escape with the output entry left empty; an exception of the
    payment function escapes before the output entry is touched. *)
Theorem total_monthly_payment_handler_shows :
  forall entries a r t,
    let filled := Form.fill_missing_fields entries loan_fields in
    float (Form.text filled Form.Loan_Amount) = Ret a ->
    float (Form.text filled Form.Annual_Interest_Rate) = Ret r ->
    float (Form.text filled Form.Loan_Term) = Ret t ->
    let result :=
      Form.call_calculate_total_monthly_payment float format_2f entries in
    let emptied := Form.delete_all filled Form.Total_Monthly_Payment in
    (forall message,
        check_loan_parameters a r t (Form.loan_term_units entries)
        = Some message ->
        result
        = Form.Done
            (Form.insert_front emptied Form.Total_Monthly_Payment
                               message)) /\
    (forall base,
        calculate_monthly_payment a r t (Form.loan_term_units entries)
        = Ret (Num base) ->
        (forall x,
            float (Form.text filled Form.Additional_Monthly_Payment)
            = Ret x ->
            result
            = Form.Done
                (Form.insert_front emptied Form.Total_Monthly_Payment
                   (format_2f (add base (Float x))))) /\
        (forall e,
            float (Form.text filled Form.Additional_Monthly_Payment)
            = Raise e ->
            result = Form.Escaped e emptied)) /\
    (forall e,
        calculate_monthly_payment a r t (Form.loan_term_units entries)
        = Raise e ->
        result = Form.Escaped e filled).
Proof.
  intros entries a r t filled Ha Hr Ht result emptied.
  pose proof (fill_missing_fields_units loan_fields entries) as [Hu1 _].
  fold filled in Hu1.
  assert (Hrun :
    result
    = match calculate_monthly_payment a r t (Form.loan_term_units entries)
      with
      | Raise e => Form.Escaped e filled
      | Ret (Num base) =>
          match float (Form.text filled Form.Additional_Monthly_Payment)
          with
          | Raise e => Form.Escaped e emptied
          | Ret additional =>
              Form.Done
                (Form.insert_front emptied Form.Total_Monthly_Payment
                   (format_2f (add base (Float additional))))
          end
      | Ret (Str message) =>
          Form.Done
            (Form.insert_front emptied Form.Total_Monthly_Payment message)
      end).
  { subst result emptied. unfold Form.call_calculate_total_monthly_payment.
    cbv zeta. fold filled. rewrite Ha, Hr, Ht. cbn [bind]. rewrite Hu1.
    reflexivity. }
  rewrite Hrun. clear Hrun. split; [|split].
  - intros message Hcheck.
    now rewrite (monthly_payment_message a r t _ message Hcheck).
  - intros base Hbase. rewrite Hbase. split.
    + intros x Hx. now rewrite Hx.
    + intros e He. now rewrite He.
  - intros e He. now rewrite He.
Qed.

(** X12: the take-home handler on entries that all hold numbers shows
    what the net take-home calculation on those numbers gives, its number
    in two decimals or its message, and an exception of the calculation
    escapes before the output entry is touched. *)
Theorem monthly_takehome_handler_shows_net :
  forall entries a r t x s tax sav,
    let filled := Form.fill_missing_fields entries all_fields in
    float (Form.text filled Form.Salary) = Ret s ->
    float (Form.text filled Form.Effective_Tax_Rate) = Ret tax ->
    float (Form.text filled Form.Annual_Savings_Target) = Ret sav ->
    float (Form.text filled Form.Loan_Amount) = Ret a ->
    float (Form.text filled Form.Annual_Interest_Rate) = Ret r ->
    float (Form.text filled Form.Loan_Term) = Ret t ->
    float (Form.text filled Form.Additional_Monthly_Payment) = Ret x ->
    let emptied := Form.delete_all filled Form.Monthly_Takehome_Salary in
    Form.call_calculate_monthly_takehome float format_2f entries
    = match
        call_calculate_monthly_takehome
          {| Loan_Amount := a; Annual_Interest_Rate := r; Loan_Term := t;
             Loan_Term_Units := Form.loan_term_units entries;
             Additional_Monthly_Payment := x;
             Salary := s; Effective_Tax_Rate := tax;
             Annual_Savings_Target := sav |}
      with
      | Ret (Fixed2 v) =>
          Form.Done
            (Form.insert_front emptied Form.Monthly_Takehome_Salary
                               (format_2f v))
      | Ret (Text message) =>
          Form.Done
            (Form.insert_front emptied Form.Monthly_Takehome_Salary
                               message)
      | Raise e => Form.Escaped e filled
      end.
Proof.
  intros entries a r t x s tax sav filled Hs Htax Hsav Ha Hr Ht Hx emptied.
  pose proof (fill_missing_fields_units all_fields entries) as [Hu1 _].
  fold filled in Hu1. subst emptied.
  unfold Form.call_calculate_monthly_takehome,
    call_calculate_monthly_takehome,
    call_calculate_monthly_takehome_with.
  cbv zeta. fold filled.
  cbn [Loan_Amount Annual_Interest_Rate Loan_Term Loan_Term_Units
       Additional_Monthly_Payment Salary Effective_Tax_Rate
       Annual_Savings_Target].
  rewrite Hs, Htax, Hsav, Ha. cbn [bind].
  destruct (Req_dec_T a 0); cbn [bind fst snd].
  - destruct (calculate_monthly_takehome s tax sav); reflexivity.
  - rewrite Hr, Ht. cbn [bind]. rewrite Hu1.
    destruct (calculate_monthly_payment _ _ _ _) as [base|];
      cbn [bind fst snd]; [|reflexivity].
    rewrite Hx. cbn [bind].
    destruct (calculate_monthly_takehome s tax sav), base; reflexivity.
Qed.

Hypothesis float_zero : float "0" = Ret 0.


(** X14: with the loan amount left blank, the take-home handler shows the
    take-home salary minus nothing, or the salary's message, whatever the
    rate, term and extra-payment entries hold: they are not read, so text
    in them that is not a number raises nothing. *)
Theorem monthly_takehome_handler_blank_loan :
  forall entries s tax sav,
    let filled := Form.fill_missing_fields entries all_fields in
    Form.strip (Form.text entries Form.Loan_Amount) = "" ->
    float (Form.text filled Form.Salary) = Ret s ->
    float (Form.text filled Form.Effective_Tax_Rate) = Ret tax ->
    float (Form.text filled Form.Annual_Savings_Target) = Ret sav ->
    let emptied := Form.delete_all filled Form.Monthly_Takehome_Salary in
    Form.call_calculate_monthly_takehome float format_2f entries
    = match calculate_monthly_takehome s tax sav with
      | Num takehome =>
          Form.Done
            (Form.insert_front emptied Form.Monthly_Takehome_Salary
               (format_2f (sub (sub takehome (Float 0)) (Float 0))))
      | Str message =>
          Form.Done
            (Form.insert_front emptied Form.Monthly_Takehome_Salary
                               message)
      end.
Proof.
  intros entries s tax sav filled Hblank Hs Htax Hsav emptied.
  assert (Hloan : Form.text filled Form.Loan_Amount = "0").
  { apply fill_missing_fields_blank; [|assumption]. cbn; tauto. }
  unfold Form.call_calculate_monthly_takehome. cbv zeta. fold filled.
  rewrite Hs, Htax, Hsav, Hloan, float_zero. cbn [bind].
  destruct (Req_dec_T 0 0) as [_|Hne]; [|now destruct Hne].
  cbn [bind]. destruct (calculate_monthly_takehome s tax sav); reflexivity.
Qed.

Lemma fill_missing_fields_make_form fields_to_fill :
  Form.fill_missing_fields Form.make_form fields_to_fill = Form.make_form.
Proof.
  induction fields_to_fill as [|f rest IH]; [reflexivity|].
  cbn [Form.fill_missing_fields]. exact IH.
Qed.

(** X15: on the form as [make_form] returns it, none of the three
    handlers raises: the total-payment handler shows the loan-amount
    message, the time-to-repay handler the request to select a unit, and
    the take-home handler the salary message. *)
Theorem handlers_on_new_form :
  (exists after,
      Form.call_calculate_total_monthly_payment float format_2f
                                                Form.make_form
      = Form.Done after /\
      Form.text after Form.Total_Monthly_Payment
      = "Please enter valid loan amount") /\
  (exists after,
      Form.call_calculate_time_to_repay float format_1f Form.make_form
      = Form.Done after /\
      Form.text after Form.Time_to_Repay
      = "Please select 'years' or 'months'") /\
  (exists after,
      Form.call_calculate_monthly_takehome float format_2f Form.make_form
      = Form.Done after /\
      Form.text after Form.Monthly_Takehome_Salary
      = "Please enter valid salary").
Proof.
  assert (Hzero : forall u extra,
            calculate_time_to_repay 0 0 0 u extra
            = Ret (Str "Please enter valid loan amount")).
  { intros u extra. apply time_to_repay_message.
    unfold check_loan_parameters.
    destruct (Req_dec_T 0 0) as [_|H]; [reflexivity | now destruct H]. }
  assert (Hpay : forall u,
            calculate_monthly_payment 0 0 0 u
            = Ret (Str "Please enter valid loan amount")).
  { intros u. apply monthly_payment_message.
    unfold check_loan_parameters.
    destruct (Req_dec_T 0 0) as [_|H]; [reflexivity | now destruct H]. }
  split; [|split]; eexists; split.
  - unfold Form.call_calculate_total_monthly_payment.
    cbv zeta. rewrite fill_missing_fields_make_form.
    cbn [Form.text Form.make_form Form.loan_term_units].
    rewrite float_zero. cbn [bind]. rewrite Hpay. reflexivity.
  - apply text_written.
  - unfold Form.call_calculate_time_to_repay.
    cbv zeta. rewrite fill_missing_fields_make_form.
    cbn [Form.text Form.make_form Form.loan_term_units].
    rewrite float_zero. cbn [bind]. rewrite Hzero. reflexivity.
  - apply text_written.
  - unfold Form.call_calculate_monthly_takehome.
    cbv zeta. rewrite fill_missing_fields_make_form.
    cbn [Form.text Form.make_form Form.loan_term_units].
    rewrite float_zero. cbn [bind].
    destruct (Req_dec_T 0 0) as [_|H]; [|now destruct H].
    cbn [bind]. unfold calculate_monthly_takehome.
    destruct (Req_dec_T 0 0) as [_|H]; [|now destruct H].
    reflexivity.
  - apply text_written.
Qed.

End HandlerFacts.

(** ** The handlers on concrete forms, with [float] on digits *)

Lemma handlers_touch_only_their_output_witness :
  Form.text
    (Form.final
       (Form.call_calculate_time_to_repay
          Form.float_of_digits (fun _ => "0.0")
          (Form.set_text Form.make_form Form.Salary "50000")))
    Form.Salary
  = Form.text
      (Form.fill_missing_fields
         (Form.set_text Form.make_form Form.Salary "50000")
         [Form.Loan_Amount; Form.Annual_Interest_Rate; Form.Loan_Term;
          Form.Additional_Monthly_Payment])
      Form.Salary.
Proof.
  pose proof (proj1 (handlers_touch_only_their_output
                       Form.float_of_digits (fun _ => "0.00")
                       (fun _ => "0.0")
                       (Form.set_text Form.make_form Form.Salary "50000")
                       Form.Salary)) as H.
  cbv zeta in H. apply H. discriminate.
Defined.

Lemma check_all_zero u :
  check_loan_parameters 0 0 0 u = Some "Please enter valid loan amount".
Proof.
  unfold check_loan_parameters.
  destruct (Req_dec_T 0 0) as [_|H]; [reflexivity | now destruct H].
Qed.

Lemma time_to_repay_handler_hides_validator_message_witness :
  Form.call_calculate_time_to_repay
    Form.float_of_digits (fun _ => "0.0")
    {| Form.text := fun _ => "0"; Form.loan_term_units := "years";
       Form.repay_time_units := "months" |}
  = Form.Escaped TypeError
      (Form.delete_all
         (Form.fill_missing_fields
            {| Form.text := fun _ => "0"; Form.loan_term_units := "years";
               Form.repay_time_units := "months" |}
            [Form.Loan_Amount; Form.Annual_Interest_Rate; Form.Loan_Term;
             Form.Additional_Monthly_Payment])
         Form.Time_to_Repay).
Proof.
  pose proof (time_to_repay_handler_hides_validator_message
                Form.float_of_digits (fun _ => "0.0")
                {| Form.text := fun _ => "0";
                   Form.loan_term_units := "years";
                   Form.repay_time_units := "months" |}
                0 0 0 0 "Please enter valid loan amount"
                eq_refl eq_refl eq_refl eq_refl (check_all_zero "years"))
    as H.
  cbv zeta in H. apply H. left; reflexivity.
Defined.

Lemma total_monthly_payment_handler_shows_witness :
  Form.call_calculate_total_monthly_payment
    Form.float_of_digits (fun _ => "0.00") Form.make_form
  = Form.Done
      (Form.insert_front
         (Form.delete_all
            (Form.fill_missing_fields Form.make_form
               [Form.Loan_Amount; Form.Annual_Interest_Rate;
                Form.Loan_Term; Form.Additional_Monthly_Payment])
            Form.Total_Monthly_Payment)
         Form.Total_Monthly_Payment "Please enter valid loan amount").
Proof.
  pose proof (total_monthly_payment_handler_shows
                Form.float_of_digits (fun _ => "0.00") Form.make_form
                0 0 0 eq_refl eq_refl eq_refl) as H.
  cbv zeta in H. apply H. apply check_all_zero.
Defined.

Lemma monthly_takehome_handler_shows_net_witness :
  Form.call_calculate_monthly_takehome
    Form.float_of_digits (fun _ => "0.00") Form.make_form
  = match
      call_calculate_monthly_takehome
        {| Loan_Amount := 0; Annual_Interest_Rate := 0; Loan_Term := 0;
           Loan_Term_Units := "Loan Term Units";
           Additional_Monthly_Payment := 0;
           Salary := 0; Effective_Tax_Rate := 0;
           Annual_Savings_Target := 0 |}
    with
    | Ret (Fixed2 v) =>
        Form.Done
          (Form.insert_front
             (Form.delete_all
                (Form.fill_missing_fields Form.make_form
                   [Form.Loan_Amount; Form.Annual_Interest_Rate;
                    Form.Loan_Term; Form.Additional_Monthly_Payment;
                    Form.Salary; Form.Effective_Tax_Rate;
                    Form.Annual_Savings_Target])
                Form.Monthly_Takehome_Salary)
             Form.Monthly_Takehome_Salary "0.00")
    | Ret (Text message) =>
        Form.Done
          (Form.insert_front
             (Form.delete_all
                (Form.fill_missing_fields Form.make_form
                   [Form.Loan_Amount; Form.Annual_Interest_Rate;
                    Form.Loan_Term; Form.Additional_Monthly_Payment;
                    Form.Salary; Form.Effective_Tax_Rate;
                    Form.Annual_Savings_Target])
                Form.Monthly_Takehome_Salary)
             Form.Monthly_Takehome_Salary message)
    | Raise e =>
        Form.Escaped e
          (Form.fill_missing_fields Form.make_form
             [Form.Loan_Amount; Form.Annual_Interest_Rate;
              Form.Loan_Term; Form.Additional_Monthly_Payment;
              Form.Salary; Form.Effective_Tax_Rate;
              Form.Annual_Savings_Target])
    end.
Proof.
  exact (monthly_takehome_handler_shows_net
           Form.float_of_digits (fun _ => "0.00") Form.make_form
           0 0 0 0 0 0 0
           eq_refl eq_refl eq_refl eq_refl eq_refl eq_refl eq_refl).
Defined.


Lemma monthly_takehome_handler_blank_loan_witness :
  Form.call_calculate_monthly_takehome
    Form.float_of_digits (fun _ => "0.00")
    {| Form.text :=
         fun f =>
           match f with
           | Form.Loan_Amount => ""
           | Form.Annual_Interest_Rate => "four"
           | Form.Salary => "50000"
           | _ => "0"
           end;
       Form.loan_term_units := "years";
       Form.repay_time_units := "months" |}
  = match calculate_monthly_takehome 50000 0 0 with
    | Num takehome =>
        Form.Done
          (Form.insert_front
             (Form.delete_all
                (Form.fill_missing_fields
                   {| Form.text :=
                        fun f =>
                          match f with
                          | Form.Loan_Amount => ""
                          | Form.Annual_Interest_Rate => "four"
                          | Form.Salary => "50000"
                          | _ => "0"
                          end;
                      Form.loan_term_units := "years";
                      Form.repay_time_units := "months" |}
                   [Form.Loan_Amount; Form.Annual_Interest_Rate;
                    Form.Loan_Term; Form.Additional_Monthly_Payment;
                    Form.Salary; Form.Effective_Tax_Rate;
                    Form.Annual_Savings_Target])
                Form.Monthly_Takehome_Salary)
             Form.Monthly_Takehome_Salary "0.00")
    | Str message =>
        Form.Done
          (Form.insert_front
             (Form.delete_all
                (Form.fill_missing_fields
                   {| Form.text :=
                        fun f =>
                          match f with
                          | Form.Loan_Amount => ""
                          | Form.Annual_Interest_Rate => "four"
                          | Form.Salary => "50000"
                          | _ => "0"
                          end;
                      Form.loan_term_units := "years";
                      Form.repay_time_units := "months" |}
                   [Form.Loan_Amount; Form.Annual_Interest_Rate;
                    Form.Loan_Term; Form.Additional_Monthly_Payment;
                    Form.Salary; Form.Effective_Tax_Rate;
                    Form.Annual_Savings_Target])
                Form.Monthly_Takehome_Salary)
             Form.Monthly_Takehome_Salary message)
    end.
Proof.
  exact (monthly_takehome_handler_blank_loan
           Form.float_of_digits (fun _ => "0.00") eq_refl
           {| Form.text :=
                fun f =>
                  match f with
                  | Form.Loan_Amount => ""
                  | Form.Annual_Interest_Rate => "four"
                  | Form.Salary => "50000"
                  | _ => "0"
                  end;
              Form.loan_term_units := "years";
              Form.repay_time_units := "months" |}
           50000 0 0 eq_refl eq_refl eq_refl eq_refl).
Defined.

Lemma handlers_on_new_form_witness :
  exists after,
    Form.call_calculate_total_monthly_payment
      Form.float_of_digits (fun _ => "0.00") Form.make_form
    = Form.Done after /\
    Form.text after Form.Total_Monthly_Payment
    = "Please enter valid loan amount".
Proof.
  exact (proj1 (handlers_on_new_form
                  Form.float_of_digits (fun _ => "0.00") (fun _ => "0.0")
                  eq_refl)).
Defined.
